(** * hw_django: validators, association tables and the join / leave views

    A shallow embedding of [main_game/models.py] and of the membership views
    of [main_game/views.py].

    - Python [str] values are lists of Unicode code points.
    - An aware [datetime] is an integer instant (microseconds since the epoch);
      a nullable [DateTimeField] holds [option datetime].
    - A Python function that may raise runs in the monad [M]: it takes a
      [World] and returns a [result] together with the world it leaves behind.
      The store runs in autocommit mode, so what was written before an
      exception stays written.
    - [datetime.now] and [uuid4] are read from the world: the world carries the
      sequence of values that successive calls return.  The primary key is
      enforced where a client is inserted; for clubs and for rows of the
      through tables the identifier [uuid4] draws is taken not to be in use.
    - The two keys of a through row are taken to be keys of stored rows, as
      they are wherever the views insert one (the club and the client were
      just read); the referential check of the database is not modelled.
    - What the framework does for the declarations of [models.py] is written
      out where a property depends on it: [unique_together], the one-to-one
      [user] column, [on_delete=CASCADE], defaults of omitted fields, and the
      fact that [QuerySet.create] builds the instance and calls its [save]. *)

From Stdlib Require Import String Ascii ZArith NArith List Bool Lia.
Import ListNotations.
Local Open Scope Z_scope.

(* ================================================================== *)
(** ** Values *)

Definition uuid := N.
Definition user_id := N.
Definition datetime := Z.

(** A Python [str]: its code points. *)
Definition text := list N.

Fixpoint lit (s : string) : text :=
  match s with
  | EmptyString => []
  | String a s' => N_of_ascii a :: lit s'
  end.

Definition LF : N := 10%N.

(* ================================================================== *)
(** ** The fragment of [re] that [phone_number_validator] uses

    The pattern [^\+7[0-9]{3}[0-9]{7}$] is a concatenation of one-character
    atoms and the two anchors.  Without [re.MULTILINE], [^] matches at the
    start of the string only, and [$] matches at the end of the string and
    also just before a newline that is the last character. *)

Inductive atom : Type :=
| Caret
| Dollar
| Chr (c : N)
| Range (lo hi : N).

Definition regex := list atom.

(** [a{n}] *)
Definition times (n : nat) (a : atom) : regex := repeat a n.

Definition at_dollar (s : text) : bool :=
  match s with
  | [] => true
  | [c] => N.eqb c LF
  | _ => false
  end.

(** Match [re] at the current position; [bos] tells whether the position is
    the start of the string, [s] is what remains to be read. *)
Fixpoint match_here (re : regex) (bos : bool) (s : text) : bool :=
  match re with
  | [] => true
  | Caret :: re' => bos && match_here re' bos s
  | Dollar :: re' => at_dollar s && match_here re' bos s
  | Chr c :: re' =>
      match s with
      | x :: s' => N.eqb x c && match_here re' false s'
      | [] => false
      end
  | Range lo hi :: re' =>
      match s with
      | x :: s' => (N.leb lo x && N.leb x hi) && match_here re' false s'
      | [] => false
      end
  end.

Fixpoint search_from (re : regex) (bos : bool) (s : text) : bool :=
  match_here re bos s
  || match s with
     | [] => false
     | _ :: s' => search_from re false s'
     end.

(** [rule.search(number)] being truthy *)
Definition search (re : regex) (s : text) : bool := search_from re true s.

Definition digit_range : atom := Range 48 57.

(** [re.compile(r'^\+7[0-9]{3}[0-9]{7}$')] *)
Definition rule : regex :=
  [Caret; Chr 43; Chr 55] ++ times 3 digit_range ++ times 7 digit_range ++ [Dollar].

Definition is_digit (c : N) : bool := N.leb 48 c && N.leb c 57.

(* ================================================================== *)
(** ** Exceptions *)

Inductive value : Type :=
| VDate (dt : option datetime)
| VInt (n : Z)
| VStr (s : text).

Inductive through : Type :=
| ClubToGame
| SetToGame
| GameGenre
| ClubAddress
| ClubClient.

Inductive model : Type :=
| MClub
| MClient
| MThrough (t : through).

Inductive exn : Type :=
| ValidationError (message : string) (params : option (string * value))
| TypeError
| DoesNotExist (m : model)
| MultipleObjectsReturned (m : model)
| IntegrityError (m : model).

(** [except (exceptions.ValidationError, exceptions.ObjectDoesNotExist)] *)
Definition is_ValidationError_or_ObjectDoesNotExist (e : exn) : bool :=
  match e with
  | ValidationError _ _ => true
  | DoesNotExist _ => true
  | _ => false
  end.

Inductive result (A : Type) : Type :=
| Ok (a : A)
| Raise (e : exn).
Arguments Ok {A} a.
Arguments Raise {A} e.

(* ================================================================== *)
(** ** Rows and tables *)

(** [Club(UUIDMixin, CreatedMixin, ModifiedMixin)] *)
Record Club : Type := mkClub {
  club_id : uuid;
  club_created : option datetime;
  club_modified : option datetime;
  club_name : text;
  club_phone_number : text
}.

(** [Client(UUIDMixin, CreatedMixin, ModifiedMixin)] *)
Record Client : Type := mkClient {
  client_id : uuid;
  client_created : option datetime;
  client_modified : option datetime;
  client_user : user_id
}.

(** A row of one of the five [through] models.  [link_left] and [link_right]
    are the two foreign keys in the order the class declares them:
    ClubToGame (club, game), SetToGame (set, game), GameGenre (game, genre),
    ClubAddress (club, address), ClubClient (club, client).
    [link_modified] stays [None] for ClubClient, which has no such column. *)
Record Link : Type := mkLink {
  link_id : uuid;
  link_created : option datetime;
  link_modified : option datetime;
  link_left : uuid;
  link_right : uuid
}.

Record DB : Type := mkDB {
  clubs : list Club;
  clients : list Client;
  club_to_game : list Link;
  set_to_game : list Link;
  game_genre : list Link;
  club_address : list Link;
  club_client : list Link
}.

Definition table (t : through) (d : DB) : list Link :=
  match t with
  | ClubToGame => club_to_game d
  | SetToGame => set_to_game d
  | GameGenre => game_genre d
  | ClubAddress => club_address d
  | ClubClient => club_client d
  end.

Definition set_table (t : through) (rows : list Link) (d : DB) : DB :=
  match t with
  | ClubToGame =>
      mkDB (clubs d) (clients d) rows (set_to_game d) (game_genre d) (club_address d) (club_client d)
  | SetToGame =>
      mkDB (clubs d) (clients d) (club_to_game d) rows (game_genre d) (club_address d) (club_client d)
  | GameGenre =>
      mkDB (clubs d) (clients d) (club_to_game d) (set_to_game d) rows (club_address d) (club_client d)
  | ClubAddress =>
      mkDB (clubs d) (clients d) (club_to_game d) (set_to_game d) (game_genre d) rows (club_client d)
  | ClubClient =>
      mkDB (clubs d) (clients d) (club_to_game d) (set_to_game d) (game_genre d) (club_address d) rows
  end.

Definition set_clubs (cs : list Club) (d : DB) : DB :=
  mkDB cs (clients d) (club_to_game d) (set_to_game d) (game_genre d) (club_address d) (club_client d).

Definition set_clients (cs : list Client) (d : DB) : DB :=
  mkDB (clubs d) cs (club_to_game d) (set_to_game d) (game_genre d) (club_address d) (club_client d).

(** [Meta.unique_together]: declared by four of the five through models;
    [ClubClient.Meta] has [db_table] and the verbose names only. *)
Definition unique_together (t : through) : bool :=
  match t with
  | ClubToGame => true
  | SetToGame => true
  | GameGenre => true
  | ClubAddress => true
  | ClubClient => false
  end.

(** Whether the through model has the [modified] column ([ModifiedMixin]). *)
Definition has_modified (t : through) : bool :=
  match t with
  | ClubClient => false
  | _ => true
  end.

Definition same_pair (l r : uuid) (row : Link) : bool :=
  N.eqb (link_left row) l && N.eqb (link_right row) r.

(** Number of rows of [t] holding the pair [(l, r)]. *)
Definition pair_count (t : through) (l r : uuid) (d : DB) : nat :=
  length (filter (same_pair l r) (table t d)).

(* ================================================================== *)
(** ** The world and the monad *)

Inductive validator : Type :=
| v_check_created
| v_check_modified
| v_check_level
| v_phone_number_validator.

Record World : Type := mkWorld {
  db : DB;
  (** the values successive [datetime.now(timezone.utc)] calls return *)
  clock : nat -> datetime;
  tick : nat;
  (** the values successive [uuid4()] calls return *)
  uuids : nat -> uuid;
  drawn : nat;
  (** ghost trace: every validator call, oldest first; no code reads it *)
  validated : list (validator * value)
}.

Definition M (A : Type) : Type := World -> result A * World.

Definition ret {A} (a : A) : M A := fun w => (Ok a, w).

Definition bind {A B} (c : M A) (k : A -> M B) : M B :=
  fun w =>
    match c w with
    | (Ok a, w') => k a w'
    | (Raise e, w') => (Raise e, w')
    end.

Definition raise {A} (e : exn) : M A := fun w => (Raise e, w).

(** [try: c  except <handles>: h] *)
Definition try_except {A} (c : M A) (handles : exn -> bool) (h : exn -> M A) : M A :=
  fun w =>
    match c w with
    | (Ok a, w') => (Ok a, w')
    | (Raise e, w') => if handles e then h e w' else (Raise e, w')
    end.

Declare Scope py_scope.
Delimit Scope py_scope with py.
Notation "x <- c ;; k" := (bind c (fun x => k))
  (at level 61, c at next level, right associativity) : py_scope.
Notation "c ;;; k" := (bind c (fun _ => k))
  (at level 61, right associativity) : py_scope.
Local Open Scope py_scope.

Definition read_db : M DB := fun w => (Ok (db w), w).

Definition write_db (d : DB) : M unit :=
  fun w => (Ok tt, mkWorld d (clock w) (tick w) (uuids w) (drawn w) (validated w)).

(** [get_datetime()] *)
Definition get_datetime : M datetime :=
  fun w => (Ok (clock w (tick w)),
            mkWorld (db w) (clock w) (S (tick w)) (uuids w) (drawn w) (validated w)).

(** [uuid4()] *)
Definition uuid4 : M uuid :=
  fun w => (Ok (uuids w (drawn w)),
            mkWorld (db w) (clock w) (tick w) (uuids w) (S (drawn w)) (validated w)).

Definition called (v : validator) (x : value) : M unit :=
  fun w => (Ok tt,
            mkWorld (db w) (clock w) (tick w) (uuids w) (drawn w) (validated w ++ [(v, x)])).

(* ================================================================== *)
(** ** Validators (models.py, lines 37-96) *)

Definition msg_future : string := "Date and time cannot be in the future.".
Definition msg_level : string := "Value should be between zero and one hundred.".
Definition msg_phone : string := "Phone number must be in the format +79999999999.".

(** [dt > get_datetime()]: the clock is read, then the comparison is made;
    comparing [None] with a datetime raises [TypeError]. *)
Definition later_than_now (dt : option datetime) : M bool :=
  now <- get_datetime ;;
  match dt with
  | Some t => ret (Z.ltb now t)
  | None => raise TypeError
  end.

Definition check_created (dt : option datetime) : M unit :=
  called v_check_created (VDate dt) ;;;
  future <- later_than_now dt ;;
  if future
  then raise (ValidationError msg_future (Some ("created"%string, VDate dt)))
  else ret tt.

Definition check_modified (dt : option datetime) : M unit :=
  called v_check_modified (VDate dt) ;;;
  future <- later_than_now dt ;;
  if future
  then raise (ValidationError msg_future (Some ("modified"%string, VDate dt)))
  else ret tt.

Definition check_level (number : Z) : M unit :=
  called v_check_level (VInt number) ;;;
  if Z.ltb number 0 || Z.ltb 100 number
  then raise (ValidationError msg_level None)
  else ret tt.

Definition phone_number_validator (number : text) : M unit :=
  called v_phone_number_validator (VStr number) ;;;
  if negb (search rule number)
  then raise (ValidationError msg_phone (Some ("phone_number"%string, VStr number)))
  else ret tt.

(* ================================================================== *)
(** ** Queries and writes the framework performs *)

Fixpoint for_each {A} (xs : list A) (body : A -> M unit) : M unit :=
  match xs with
  | [] => ret tt
  | x :: xs' => body x ;;; for_each xs' body
  end.

(** [.get(...)] on the rows a filter selected *)
Definition get_one {A} (m : model) (rows : list A) : M A :=
  match rows with
  | [] => raise (DoesNotExist m)
  | [x] => ret x
  | _ => raise (MultipleObjectsReturned m)
  end.

(** Value of a field at construction: the keyword argument when the key is
    present, the field's [default] otherwise. *)
Definition kwarg_or_default {A} (kw : option A) (default : M A) : M A :=
  match kw with
  | Some x => ret x
  | None => default
  end.

Definition default_now : M (option datetime) :=
  now <- get_datetime ;; ret (Some now).

(** *** Club *)

Record ClubKwargs : Type := mkClubKwargs {
  kw_name : option text;
  kw_phone_number : option text;
  kw_club_created : option (option datetime);
  kw_club_modified : option (option datetime)
}.

(** [Club(kwargs)]: fields in declaration order id, created, modified, name,
    phone_number; an omitted [TextField] without default becomes [''] *)
Definition Club_init (kwargs : ClubKwargs) : M Club :=
  i <- uuid4 ;;
  c <- kwarg_or_default (kw_club_created kwargs) default_now ;;
  m <- kwarg_or_default (kw_club_modified kwargs) default_now ;;
  n <- kwarg_or_default (kw_name kwargs) (ret []) ;;
  p <- kwarg_or_default (kw_phone_number kwargs) (ret []) ;;
  ret (mkClub i c m n p).

Definition replace_club (self : Club) (r : Club) : Club :=
  if N.eqb (club_id r) (club_id self) then self else r.

(** [models.Model.save] for Club: INSERT when forced or when no row has the
    key, UPDATE of the row with the key otherwise.  Club inherits it as it is:
    it does not run field validators. *)
Definition Club_save (self : Club) (force_insert : bool) : M unit :=
  d <- read_db ;;
  if negb force_insert && existsb (fun r => N.eqb (club_id r) (club_id self)) (clubs d)
  then write_db (set_clubs (map (replace_club self) (clubs d)) d)
  else write_db (set_clubs (clubs d ++ [self]) d).

(** [Club.objects.create(kwargs)]: the stock manager *)
Definition Club_objects_create (kwargs : ClubKwargs) : M Club :=
  obj <- Club_init kwargs ;;
  Club_save obj true ;;;
  ret obj.

(** Through models whose rows go with a Club ([on_delete=models.CASCADE] on
    their [club] key): lines 313, 409 and 571. *)
Definition club_cascade : list through := [ClubToGame; ClubAddress; ClubClient].

Definition drop_left (c : uuid) (t : through) (d : DB) : DB :=
  set_table t (filter (fun r => negb (N.eqb (link_left r) c)) (table t d)) d.

(** [club.delete()] *)
Definition Club_delete (self : Club) : M unit :=
  d <- read_db ;;
  let d' := fold_right (drop_left (club_id self)) d club_cascade in
  write_db (set_clubs (filter (fun c => negb (N.eqb (club_id c) (club_id self))) (clubs d')) d').

(** *** Through models *)

(** [Through(left=l, right=r)]: id, created and (where the column exists)
    modified take their defaults *)
Definition through_init (t : through) (l r : uuid) : M Link :=
  i <- uuid4 ;;
  c <- default_now ;;
  m <- (if has_modified t then default_now else ret None) ;;
  ret (mkLink i c m l r).

(** INSERT into the table of [t], under the constraint its Meta declares.
    The two keys of [row] are taken to be keys of stored rows. *)
Definition through_insert (t : through) (row : Link) : M unit :=
  d <- read_db ;;
  if unique_together t && existsb (same_pair (link_left row) (link_right row)) (table t d)
  then raise (IntegrityError (MThrough t))
  else write_db (set_table t (table t d ++ [row]) d).

(** [Through.objects.create(left=l, right=r)] *)
Definition through_objects_create (t : through) (l r : uuid) : M Link :=
  row <- through_init t l r ;;
  through_insert t row ;;;
  ret row.

(** [Through.objects.filter(left=l, right=r).exists()] *)
Definition through_exists (t : through) (l r : uuid) : M bool :=
  d <- read_db ;;
  ret (existsb (same_pair l r) (table t d)).

(** [instance.relation.add(other)] through [t]: the related manager looks for
    the pair and inserts a row only when there is none *)
Definition related_add (t : through) (l r : uuid) : M unit :=
  present <- through_exists t l r ;;
  if present then ret tt
  else (row <- through_init t l r ;; through_insert t row).

(** [Through.objects.get(left=l, right=r)] *)
Definition through_objects_get (t : through) (l r : uuid) : M Link :=
  d <- read_db ;;
  get_one (MThrough t) (filter (same_pair l r) (table t d)).

(** [row.delete()] *)
Definition through_delete (t : through) (row : Link) : M unit :=
  d <- read_db ;;
  write_db (set_table t (filter (fun r => negb (N.eqb (link_id r) (link_id row))) (table t d)) d).

(** *** Client *)

Inductive tsfield : Type :=
| created
| modified.

Record ClientKwargs : Type := mkClientKwargs {
  kw_user : user_id;
  kw_created : option (option datetime);
  kw_modified : option (option datetime)
}.

(** [kwargs.get(value)] when [value in kwargs.keys()] *)
Definition kwargs_lookup (kwargs : ClientKwargs) (value : tsfield) : option (option datetime) :=
  match value with
  | created => kw_created kwargs
  | modified => kw_modified kwargs
  end.

(** [getattr(self, value)] *)
Definition getattr (self : Client) (value : tsfield) : option datetime :=
  match value with
  | created => client_created self
  | modified => client_modified self
  end.

(** The lists of validators the program builds (lines 514 and 515) are keyed
    by ['created'] and ['modified']; [validators_t] is the type of the lists
    over these two attributes, each validator taking the value of a nullable
    timestamp. *)
Definition validators_t : Type := list (tsfield * (option datetime -> M unit)).

(** [(('created', check_created), ('modified', check_modified))] *)
Definition Client_validators : validators_t :=
  [(created, check_created); (modified, check_modified)].

(** [Client(kwargs)] *)
Definition Client_init (kwargs : ClientKwargs) : M Client :=
  i <- uuid4 ;;
  c <- kwarg_or_default (kw_created kwargs) default_now ;;
  m <- kwarg_or_default (kw_modified kwargs) default_now ;;
  ret (mkClient i c m (kw_user kwargs)).

Definition replace_client (self : Client) (r : Client) : Client :=
  if N.eqb (client_id r) (client_id self) then self else r.

(** [models.Model.save] for Client, with the primary key and the uniqueness
    of the one-to-one [user] column.  [force_insert] is true for
    [save(force_insert=True)] and for an instance that was constructed and not
    yet stored: its key has a default, so the framework saves it with an
    INSERT, never an UPDATE.  It is false for an instance read from the
    store, which is updated (or inserted when no row has its key). *)
Definition Model_save (self : Client) (force_insert : bool) : M unit :=
  d <- read_db ;;
  if negb force_insert && existsb (fun r => N.eqb (client_id r) (client_id self)) (clients d)
  then
    if existsb (fun r => negb (N.eqb (client_id r) (client_id self))
                         && N.eqb (client_user r) (client_user self)) (clients d)
    then raise (IntegrityError MClient)
    else write_db (set_clients (map (replace_client self) (clients d)) d)
  else
    if existsb (fun r => N.eqb (client_id r) (client_id self)) (clients d)
       || existsb (fun r => N.eqb (client_user r) (client_user self)) (clients d)
    then raise (IntegrityError MClient)
    else write_db (set_clients (clients d ++ [self]) d).

(** [create_save(validators)], lines 471-496 *)
Definition create_save (validators : validators_t) (self : Client) (force_insert : bool) : M unit :=
  for_each validators (fun vv => snd vv (getattr self (fst vv))) ;;;
  Model_save self force_insert.

(** [Client.save], line 515 *)
Definition Client_save : Client -> bool -> M unit := create_save Client_validators.

(** [QuerySet.create]: build the instance, then [obj.save(force_insert=True)],
    which for Client is the method of line 515 *)
Definition QuerySet_create (kwargs : ClientKwargs) : M Client :=
  obj <- Client_init kwargs ;;
  Client_save obj true ;;;
  ret obj.

(** [Manager.check_and_validate], lines 443-453 *)
Definition check_and_validate (kwargs : ClientKwargs) (value : tsfield)
    (validator : option datetime -> M unit) : M unit :=
  match kwargs_lookup kwargs value with
  | Some x => validator x
  | None => ret tt
  end.

(** [Manager.create] of [create_manager(validators)], lines 455-466 *)
Definition Manager_create (validators : validators_t) (kwargs : ClientKwargs) : M Client :=
  for_each validators (fun vv => check_and_validate kwargs (fst vv) (snd vv)) ;;;
  QuerySet_create kwargs.

(** Line 514 assigns to [objects] what [create_manager] returns, and that is
    the class [Manager], not an instance of it.  The model metaclass registers
    manager instances only, and a model left without a registered manager is
    given the stock one under the name [objects].  Which [create] then serves
    [Client.objects.create] is the framework's affair, so both are modelled:
    the [create] of lines 455-466 and the stock one.  Results about
    [Client.objects.create] are stated for either. *)
Inductive objects_binding : Type :=
| custom_manager
| stock_manager.

Definition Client_objects_create (b : objects_binding) (kwargs : ClientKwargs) : M Client :=
  match b with
  | custom_manager => Manager_create Client_validators kwargs
  | stock_manager => QuerySet_create kwargs
  end.

(** [Client.objects.get(user=u)] *)
Definition Client_objects_get (u : user_id) : M Client :=
  d <- read_db ;;
  get_one MClient (filter (fun c => N.eqb (client_user c) u) (clients d)).

(** [client.clubs.all()]: clubs joined with the membership rows of the client *)
Definition Client_clubs_all (client : Client) : M (list Club) :=
  d <- read_db ;;
  ret (flat_map
         (fun row =>
            if N.eqb (link_right row) (client_id client)
            then filter (fun c => N.eqb (club_id c) (link_left row)) (clubs d)
            else [])
         (club_client d)).

(** [club in queryset]: model instances are equal when their keys are *)
Definition club_in (club : Club) (qs : list Club) : bool :=
  existsb (fun c => N.eqb (club_id c) (club_id club)) qs.

(* ================================================================== *)
(** ** Views (views.py, lines 206-307) *)

Record HttpRequest : Type := mkRequest {
  (** [request.user] when authenticated *)
  req_user : option user_id;
  req_method : string;
  (** [request.GET.get('id', None)] *)
  req_GET_id : option text;
  (** the [club] entry of [request.POST] *)
  req_POST_club : option text
}.

Inductive HttpResponse : Type :=
| redirect (to : string)
| redirect_to_login
(** [render(request, 'pages/join.html', {'club': club})] *)
| render_join (club : Club)
(** [render(request, 'pages/profile.html', ...)] with its [form_errors] and
    [client_clubs] *)
| render_profile (form_errors : string) (client_clubs : list Club).

Inductive message : Type :=
| success (s : string)
| error (s : string)
(** [f'An error occurred: {exc}'] *)
| error_occurred (exc : exn).

Definition msg_invalid_uuid : string := "%(value)s is not a valid UUID.".

(** [@decorators.login_required] *)
Definition login_required {A} (anonymous : A) (view : user_id -> M A) (request : HttpRequest) : M A :=
  match req_user request with
  | Some u => view u
  | None => ret anonymous
  end.

(** An instance of the identifier parser for the examples: exactly 32
    hexadecimal digits. *)
Definition hex_value (c : N) : option N :=
  if N.leb 48 c && N.leb c 57 then Some (c - 48)%N
  else if N.leb 97 c && N.leb c 102 then Some (c - 87)%N
  else if N.leb 65 c && N.leb c 70 then Some (c - 55)%N
  else None.

Fixpoint hex_number (acc : N) (s : text) : option N :=
  match s with
  | [] => Some acc
  | c :: s' =>
      match hex_value c with
      | Some v => hex_number (16 * acc + v)%N s'
      | None => None
      end
  end.

Definition hex32 (s : text) : option uuid :=
  if Nat.eqb (length s) 32 then hex_number 0%N s else None.

Section Site.

(** [UUIDField.to_python] on a string: the identifier it denotes, or [None]
    when the framework raises [ValidationError] for a malformed one. *)
Variable to_python : text -> option uuid.

(** [Club.objects.get(id=id_)] *)
Definition Club_objects_get (id_ : text) : M Club :=
  match to_python id_ with
  | None => raise (ValidationError msg_invalid_uuid (Some ("value"%string, VStr id_)))
  | Some u =>
      d <- read_db ;;
      get_one MClub (filter (fun c => N.eqb (club_id c) u) (clubs d))
  end.

(** Lines 263-266: the lookup with its [except] clause; [None] stands for the
    [return redirect('clubs')] of the handler. *)
Definition lookup_club (id_ : text) : M (option Club) :=
  try_except
    (club <- Club_objects_get id_ ;; ret (Some club))
    is_ValidationError_or_ObjectDoesNotExist
    (fun _ => ret None).

(** [join], lines 249-283.  [if not club] (line 267) never holds for a model
    instance and is left out. *)
Definition join : HttpRequest -> M HttpResponse :=
  fun request =>
  login_required redirect_to_login (fun user =>
    client <- Client_objects_get user ;;
    match req_GET_id request with
    | None => ret (redirect "clubs")
    | Some [] => ret (redirect "clubs")
    | Some id_ =>
        found <- lookup_club id_ ;;
        match found with
        | None => ret (redirect "clubs")
        | Some club =>
            joined <- Client_clubs_all client ;;
            if club_in club joined then ret (redirect "profile")
            else if String.eqb (req_method request) "POST"
            then
              related_add ClubClient (club_id club) (client_id client) ;;;
              Client_save client false ;;;
              ret (redirect "profile")
            else ret (render_join club)
        end
    end) request.

(** [remove_from_joined], lines 286-307 *)
Definition remove_from_joined (request : HttpRequest) (club_id : uuid)
    : M (HttpResponse * list message) :=
  login_required (redirect_to_login, []) (fun user =>
    client <- Client_objects_get user ;;
    msgs <- try_except
      (club_client <- through_objects_get ClubClient club_id (client_id client) ;;
       through_delete ClubClient club_client ;;;
       ret [success "You have successfully left the club."])
      (fun _ => true)
      (fun exc =>
         match exc with
         | DoesNotExist (MThrough ClubClient) =>
             ret [error "You are not a member of this club."]
         | _ => ret [error_occurred exc]
         end) ;;
    ret (redirect "profile", msgs)) request.

(** [Join(request.POST)] with [is_valid()] and [cleaned_data.get('club')]:
    the [ModelChoiceField] requires a value and resolves it with
    [queryset.get(pk=value)], turning a failed lookup into a form error. *)
Definition Join_clean (request : HttpRequest) : M (option Club) :=
  match req_POST_club request with
  | None => ret None
  | Some [] => ret None
  | Some value_ =>
      try_except
        (club <- Club_objects_get value_ ;; ret (Some club))
        (fun e => match e with
                  | ValidationError _ _ => true
                  | DoesNotExist _ => true
                  | TypeError => true
                  | _ => false
                  end)
        (fun _ => ret None)
  end.

(** [profile], lines 206-246.  [if club] (line 223) always holds for a cleaned
    choice, so 'The club is not listed!' is not reachable.  The page context
    is kept to [form_errors] and [client_clubs]. *)
Definition profile : HttpRequest -> M HttpResponse :=
  fun request =>
  login_required redirect_to_login (fun user =>
    client <- Client_objects_get user ;;
    form_errors <-
      (if String.eqb (req_method request) "POST"
       then
         cleaned <- Join_clean request ;;
         match cleaned with
         | Some club =>
             present <- through_exists ClubClient (club_id club) (client_id client) ;;
             if negb present
             then
               through_objects_create ClubClient (club_id club) (client_id client) ;;;
               ret ""%string
             else ret "You already joined this club!"%string
         | None => ret "Form validation error!"%string
         end
       else ret ""%string) ;;
    client_clubs <- Client_clubs_all client ;;
    ret (render_profile form_errors client_clubs)) request.

End Site.

(* ================================================================== *)
(** ** Sample data for the examples *)

Definition empty_db : DB := mkDB [] [] [] [] [] [] [].

(** A clock that advances by one at each reading, and identifiers 100, 101, ... *)
Definition world_of (d : DB) (now : datetime) : World :=
  mkWorld d (fun k => now + Z.of_nat k) 0 (fun k => (100 + N.of_nat k)%N) 0 [].

Definition phone_ok : text := lit "+79098087060".

Definition club1 : Club := mkClub 1%N (Some 10) (Some 10) (lit "DEF") phone_ok.
Definition client1 : Client := mkClient 2%N (Some 20) (Some 20) 7%N.

Definition db1 : DB := mkDB [club1] [client1] [] [] [] [] [].

(** 32 hexadecimal digits denoting the identifier 1 *)
Definition id_of_club1 : text := lit "00000000000000000000000000000001".
Definition id_unknown : text := lit "000000000000000000000000000000ff".
Definition id_malformed : text := lit "123".

Definition post_join (id_ : text) : HttpRequest := mkRequest (Some 7%N) "POST" (Some id_) None.

(** The format as the specification words it: the characters [+7], then
    exactly ten decimal digits, and nothing else. *)
Definition spec_phone_format (s : text) : bool :=
  match s with
  | p :: d :: ds =>
      N.eqb p 43 && N.eqb d 55 && Nat.eqb (length ds) 10 && forallb is_digit ds
  | _ => false
  end.

(** The input of the examples with a line feed appended. *)
Definition phone_with_newline : text := phone_ok ++ [LF].

(** A clock that is set back after its second reading. *)
Definition set_back_world (d : DB) : World :=
  mkWorld d (fun k => if Nat.ltb k 2 then 100 else 50) 0 (fun k => (100 + N.of_nat k)%N) 0 [].

Definition post_profile (club : text) : HttpRequest :=
  mkRequest (Some 7%N) "POST" None (Some club).

(* ================================================================== *)
(** ** Notions used in the statements *)

(** [dt] is a timestamp that is not later than a clock reading taken between
    the worlds [w] and [w']. *)
Definition accepted_during (dt : option datetime) (w w' : World) : Prop :=
  exists t k, dt = Some t /\ (tick w <= k < tick w')%nat /\ t <= clock w k.

(** Between [w] and [w'] the validator [v] was called on [dt]. *)
Definition validated_during (v : validator) (dt : option datetime) (w w' : World) : Prop :=
  exists calls, validated w' = validated w ++ calls /\ In (v, VDate dt) calls.

(** The world a timestamp validator leaves: one clock reading consumed, one
    call recorded. *)
Definition after_call (v : validator) (dt : option datetime) (w : World) : World :=
  mkWorld (db w) (clock w) (S (tick w)) (uuids w) (drawn w)
          (validated w ++ [(v, VDate dt)]).

(** The result of a timestamp validator that reads [now]. *)
Definition timestamp_outcome (key : string) (dt : option datetime) (now : datetime)
    : result unit :=
  match dt with
  | None => Raise TypeError
  | Some t =>
      if Z.ltb now t
      then Raise (ValidationError msg_future (Some (key, VDate dt)))
      else Ok tt
  end.

(* ================================================================== *)
(** ** Detail pages (views.py, lines 88-121) *)

(** What a detail view answers: the redirect of [login_required], or the
    template rendered with the looked-up instance under [context_name]. *)
Inductive Page (A : Type) : Type :=
| page_login
| page (template : string) (context_name : string) (target : option A).
Arguments page_login {A}.
Arguments page {A} template context_name target.

(** [create_view(model_class, context_name, template)]; [objects_get] is
    [model_class.objects.get(id=...)].  The lookup is not inside a [try]. *)
Definition create_view {A} (objects_get : text -> M A) (context_name template : string)
    : HttpRequest -> M (Page A) :=
  fun request =>
  login_required page_login (fun _ =>
    target <- match req_GET_id request with
              | None => ret None
              | Some [] => ret None
              | Some id_ => (x <- objects_get id_ ;; ret (Some x))
              end ;;
    ret (page template context_name target)) request.

(** [create_view(Club, 'club', 'entities/club.html')], line 117 *)
Definition club_view (to_python : text -> option uuid) : HttpRequest -> M (Page Club) :=
  create_view (Club_objects_get to_python) "club" "entities/club.html".

(* ================================================================== *)
(** ** Permissions of the REST interface (views.py, lines 154-174) *)

(** The two attributes of [request.user] that [MyPermission] reads. *)
Record User : Type := mkUser {
  is_authenticated : bool;
  is_superuser : bool
}.

Definition _safe_methods : list string := ["GET"; "HEAD"; "OPTIONS"; "PATCH"]%string.
Definition _unsafe_methods : list string := ["POST"; "PUT"; "DELETE"]%string.

(** [method in methods] *)
Definition method_in (method : string) (methods : list string) : bool :=
  existsb (String.eqb method) methods.

(** [request.user and request.user.<flag>] as a truth value; [None] is a
    request without a user. *)
Definition user_and (user : option User) (flag : User -> bool) : bool :=
  match user with
  | Some u => flag u
  | None => false
  end.

(** [MyPermission.has_permission] *)
Definition has_permission (method : string) (user : option User) : bool :=
  if method_in method _safe_methods && user_and user is_authenticated then true
  else if method_in method _unsafe_methods && user_and user is_superuser then true
  else false.

(* ================================================================== *)
(** ** The generator of validator tests (tests/test_models.py, lines 96-115) *)

(** How a test method ends. *)
Inductive verdict : Type :=
| passed
| assertion_failed
| errored (e : exn).

(** [with self.assertRaises(ValidationError): body] *)
Definition assertRaises_ValidationError {A} (body : M A) : World -> verdict * World :=
  fun w =>
    match body w with
    | (Ok _, w') => (assertion_failed, w')
    | (Raise (ValidationError _ _), w') => (passed, w')
    | (Raise e, w') => (errored e, w')
    end.

(** The inner function [test] of [create_validation_test] *)
Definition inner_test {A} (validator_ : A -> M unit) (value_ : A) : World -> verdict * World :=
  assertRaises_ValidationError (validator_ value_).

(** The method [create_validation_test(validator, value, valid)] returns,
    run as a test: [lambda _: validator(value) if valid else test].  With
    [valid] false the lambda evaluates to the function [test] without calling
    it, and a method that returns without raising has passed. *)
Definition create_validation_test {A} (validator_ : A -> M unit) (value_ : A) (valid : bool)
    : World -> verdict * World :=
  fun w =>
    if valid
    then match validator_ value_ w with
         | (Ok _, w') => (passed, w')
         | (Raise e, w') => (errored e, w')
         end
    else (passed, w).

(* ================================================================== *)
(** ** Further notions used in the statements *)

(** The pair of keys a through row holds. *)
Definition pair_of (row : Link) : uuid * uuid := (link_left row, link_right row).

(** No two rows hold the same pair. *)
Definition pairs_unique (rows : list Link) : Prop := NoDup (map pair_of rows).

(** Everything but the clients and the membership rows is the same in both
    stores. *)
Definition catalog_kept (d d' : DB) : Prop :=
  clubs d' = clubs d /\
  club_to_game d' = club_to_game d /\
  set_to_game d' = set_to_game d /\
  game_genre d' = game_genre d /\
  club_address d' = club_address d.

(** The membership row a first join of [club] by [client] stores in [w]. *)
Definition joined_row (club : Club) (client : Client) (w : World) : Link :=
  mkLink (uuids w (drawn w)) (Some (clock w (tick w))) None (club_id club) (client_id client).

Definition club2 : Club := mkClub 3%N (Some 10) (Some 10) (lit "GHI") phone_ok.
Definition member_row : Link := mkLink 50%N (Some 30) None 1%N 2%N.
Definition member_row' : Link := mkLink 51%N (Some 31) None 1%N 2%N.

(** [client1] is a member of [club1] *)
Definition db_member : DB := mkDB [club1; club2] [client1] [] [] [] [] [member_row].

(** the same membership stored twice *)
Definition db_twice : DB := mkDB [club1] [client1] [] [] [] [] [member_row; member_row'].

Definition game_row : Link := mkLink 60%N (Some 30) (Some 30) 1%N 5%N.

(** [club1] offers the game 5 *)
Definition db_game : DB := mkDB [club1] [client1] [game_row] [] [] [] [].

Definition get_request (user : option user_id) (id_ : option text) : HttpRequest :=
  mkRequest user "GET" id_ None.

(** How a membership view may change the store: the catalogue is kept, and
    the membership table is kept, or gains one row whose pair it did not
    hold, or loses the rows with one identifier. *)
Definition membership_step (d d' : DB) : Prop :=
  catalog_kept d d' /\
  (club_client d' = club_client d \/
   (exists row,
      club_client d' = club_client d ++ [row] /\
      existsb (same_pair (link_left row) (link_right row)) (club_client d) = false) \/
   (exists i,
      club_client d' = filter (fun r => negb (N.eqb (link_id r) i)) (club_client d))).

(* ================================================================== *)
(** * Validators *)

Ltac bool_hyps :=
  repeat match goal with
         | H : _ && _ = true |- _ => apply andb_prop in H; destruct H
         | H : true = false |- _ => discriminate H
         | H : false = true |- _ => discriminate H
         end.

Lemma search_from_caret (re : regex) (s : text) :
  search_from (Caret :: re) false s = false.
Proof.
  induction s as [|c s IH]; simpl; auto.
Qed.

(** Only the start of the string can match a pattern that opens with [^]. *)
Lemma search_caret (re : regex) (s : text) :
  search (Caret :: re) s = match_here (Caret :: re) true s.
Proof.
  unfold search. destruct s as [|c s]; simpl.
  - now rewrite orb_false_r.
  - now rewrite search_from_caret, orb_false_r.
Qed.

Lemma rule_unfold :
  rule = [Caret; Chr 43; Chr 55;
          Range 48 57; Range 48 57; Range 48 57; Range 48 57; Range 48 57;
          Range 48 57; Range 48 57; Range 48 57; Range 48 57; Range 48 57;
          Dollar].
Proof. reflexivity. Qed.

Lemma spec_format_matches (s : text) :
  spec_phone_format s = true ->
  match_here rule true s = true /\ match_here rule true (s ++ [LF]) = true.
Proof.
  rewrite rule_unfold.
  do 13 (destruct s as [|? s]; try (simpl; intros; bool_hyps; discriminate)).
  simpl. unfold is_digit. intros H. bool_hyps.
  repeat match goal with
         | H : ?b = true |- context [?b] => rewrite H
         end.
  simpl. auto.
Qed.

Lemma matches_spec_format (s : text) :
  match_here rule true s = true ->
  spec_phone_format s = true \/
  exists s0, s = s0 ++ [LF] /\ spec_phone_format s0 = true.
Proof.
  rewrite rule_unfold.
  do 12 (destruct s as [|? s]; [simpl; intros; bool_hyps; discriminate|]).
  destruct s as [|c [|c' s]]; simpl; unfold is_digit; intros H; bool_hyps.
  - left.
    repeat match goal with
           | H : ?b = true |- context [?b] => rewrite H
           end.
    reflexivity.
  - right.
    match goal with
    | H : N.eqb c LF = true |- _ => apply N.eqb_eq in H; subst c
    end.
    match goal with
    | |- exists s0, ?a :: ?b :: ?c :: ?d :: ?e :: ?f :: ?g :: ?h :: ?i :: ?j :: ?k :: ?l :: [LF] = _ /\ _ =>
        exists [a; b; c; d; e; f; g; h; i; j; k; l]
    end.
    split; [reflexivity|]. simpl. unfold is_digit.
    repeat match goal with
           | H : ?b = true |- context [?b] => rewrite H
           end.
    reflexivity.
Qed.

(** What [phone_number_validator] accepts, in full: the specified format,
    and the specified format followed by one line feed. *)
Lemma phone_number_validator_accepts (s : text) (w : World) :
  fst (phone_number_validator s w) = Ok tt <->
  (spec_phone_format s = true \/
   exists s0, s = s0 ++ [LF] /\ spec_phone_format s0 = true).
Proof.
  unfold phone_number_validator, bind, called, raise, ret. simpl.
  replace (search rule s) with (match_here rule true s)
    by (rewrite rule_unfold; symmetry; apply search_caret).
  destruct (match_here rule true s) eqn:E; simpl.
  - split; [intros _; now apply matches_spec_format | reflexivity].
  - split; [discriminate|].
    intros [H | (s0 & -> & H)]; apply spec_format_matches in H; destruct H; congruence.
Qed.

(** C3 (the code departs from the claim).  The claim: the validator accepts
    [s] exactly when [s] is [+7] followed by ten digits and nothing else.
    On [+79098087060] followed by a line feed, which is not of that format,
    [phone_number_validator] returns normally, in every world: the [$] of the
    pattern also matches before a final newline. *)
Theorem phone_number_validator_trailing_newline (w : World) :
  spec_phone_format phone_with_newline = false /\
  fst (phone_number_validator phone_with_newline w) = Ok tt.
Proof.
  split; reflexivity.
Qed.

(** C8.  For every integer [n], [check_level] returns normally exactly when
    [0 <= n <= 100], and raises [ValidationError] otherwise. *)
Theorem check_level_accepts_iff (n : Z) (w : World) :
  (fst (check_level n w) = Ok tt <-> 0 <= n <= 100) /\
  (fst (check_level n w) = Ok tt \/
   fst (check_level n w) = Raise (ValidationError msg_level None)).
Proof.
  unfold check_level, bind, called, raise, ret; simpl.
  destruct (Z.ltb_spec n 0); simpl.
  - split; [split; [discriminate | lia] | now right].
  - destruct (Z.ltb_spec 100 n); simpl.
    + split; [split; [discriminate | lia] | now right].
    + split; [split; [lia | reflexivity] | now left].
Qed.

(** C9.  For every timestamp [t] and every value [now] the clock returns
    when the validator reads it, [check_created] and [check_modified] return
    normally exactly when [t <= now]; otherwise they raise [ValidationError]
    whose parameters carry [t]. *)
Theorem check_timestamp_accepts_iff (t : datetime) (w : World) :
  (fst (check_created (Some t) w) = Ok tt <-> t <= clock w (tick w)) /\
  (fst (check_created (Some t) w) = Ok tt \/
   fst (check_created (Some t) w)
   = Raise (ValidationError msg_future (Some ("created"%string, VDate (Some t))))) /\
  (fst (check_modified (Some t) w) = Ok tt <-> t <= clock w (tick w)) /\
  (fst (check_modified (Some t) w) = Ok tt \/
   fst (check_modified (Some t) w)
   = Raise (ValidationError msg_future (Some ("modified"%string, VDate (Some t))))).
Proof.
  unfold check_created, check_modified, later_than_now, get_datetime,
    bind, called, raise, ret; simpl.
  destruct (Z.ltb_spec (clock w (tick w)) t); simpl;
    repeat split; intros; try discriminate; try lia; auto.
Qed.

(* ================================================================== *)
(** * Association tables *)

Lemma same_pair_refl (i : uuid) (c m : option datetime) (l r : uuid) :
  same_pair l r (mkLink i c m l r) = true.
Proof.
  unfold same_pair; simpl. now rewrite !N.eqb_refl.
Qed.

Lemma table_set_table (t : through) (rows : list Link) (d : DB) :
  table t (set_table t rows d) = rows.
Proof. destruct t; reflexivity. Qed.

(** Where [unique_together] is declared, creating a row whose pair is already
    in the table raises [IntegrityError] and writes nothing. *)
Lemma unique_together_rejects_duplicate (t : through) (l r : uuid) (w : World) :
  unique_together t = true ->
  existsb (same_pair l r) (table t (db w)) = true ->
  fst (through_objects_create t l r w) = Raise (IntegrityError (MThrough t)) /\
  db (snd (through_objects_create t l r w)) = db w.
Proof.
  intros Hu He.
  unfold through_objects_create, through_init, through_insert, default_now,
    get_datetime, uuid4, read_db, write_db, bind, raise, ret.
  destruct t; try discriminate Hu; simpl in *; rewrite He; simpl; auto.
Qed.

(** X24.  Creating the same pair twice in a table with [unique_together], starting
    from any world: the first call may or may not insert, the second always
    fails and leaves the table as the first call left it. *)
Lemma unique_together_second_create_fails (t : through) (l r : uuid) (w : World) :
  unique_together t = true ->
  fst (through_objects_create t l r w) <> Raise (IntegrityError (MThrough t)) ->
  let w1 := snd (through_objects_create t l r w) in
  fst (through_objects_create t l r w1) = Raise (IntegrityError (MThrough t)) /\
  db (snd (through_objects_create t l r w1)) = db w1.
Proof.
  intros Hu H1 w1. apply unique_together_rejects_duplicate; auto.
  subst w1. revert H1.
  unfold through_objects_create, through_init, through_insert, default_now,
    get_datetime, uuid4, read_db, write_db, bind, raise, ret.
  destruct t; try discriminate Hu; simpl;
    match goal with
    | |- context [existsb ?f ?rows] => destruct (existsb f rows) eqn:E
    end; simpl; intros H1; try congruence;
    rewrite existsb_app; simpl; rewrite same_pair_refl; simpl; apply orb_true_r.
Qed.

(** C1 (the code departs from the claim).  The claim: in each of the five
    association tables a second row with the pair of an existing row is
    refused and the table is left unchanged.  ClubClient declares no
    [unique_together]: from any world, creating the same (club, client) pair
    twice succeeds both times and the table gains two rows with that pair. *)
Theorem ClubClient_duplicate_pair_is_stored (l r : uuid) (w : World) :
  let w1 := snd (through_objects_create ClubClient l r w) in
  let w2 := snd (through_objects_create ClubClient l r w1) in
  (exists row1, fst (through_objects_create ClubClient l r w) = Ok row1) /\
  (exists row2, fst (through_objects_create ClubClient l r w1) = Ok row2) /\
  pair_count ClubClient l r (db w2) = S (S (pair_count ClubClient l r (db w))).
Proof.
  unfold through_objects_create, through_init, through_insert, default_now,
    get_datetime, uuid4, read_db, write_db, bind, raise, ret, pair_count.
  simpl. repeat split; try (eexists; reflexivity).
  rewrite !filter_app, !length_app. simpl.
  unfold same_pair; simpl. rewrite !N.eqb_refl. simpl. lia.
Qed.

(* ================================================================== *)
(** * Deleting a club *)

Lemma filter_keeps_others (c : uuid) (rows : list Link) :
  Forall (fun row => link_left row <> c)
         (filter (fun r => negb (N.eqb (link_left r) c)) rows).
Proof.
  apply Forall_forall. intros row H. apply filter_In in H. destruct H as [_ H].
  apply negb_true_iff, N.eqb_neq in H. exact H.
Qed.

(** C7.  [club.delete()] returns normally, and afterwards no row of
    ClubToGame, ClubAddress or ClubClient refers to the club; the rows of
    those tables that refer to other clubs, and the two tables without a club
    key, are as before, and the club itself is gone. *)
Theorem Club_delete_cascades (self : Club) (w : World) :
  let w' := snd (Club_delete self w) in
  let others := fun r => negb (N.eqb (link_left r) (club_id self)) in
  fst (Club_delete self w) = Ok tt /\
  Forall (fun row => link_left row <> club_id self) (club_to_game (db w')) /\
  Forall (fun row => link_left row <> club_id self) (club_address (db w')) /\
  Forall (fun row => link_left row <> club_id self) (club_client (db w')) /\
  club_to_game (db w') = filter others (club_to_game (db w)) /\
  club_address (db w') = filter others (club_address (db w)) /\
  club_client (db w') = filter others (club_client (db w)) /\
  set_to_game (db w') = set_to_game (db w) /\
  game_genre (db w') = game_genre (db w) /\
  Forall (fun c => club_id c <> club_id self) (clubs (db w')).
Proof.
  unfold Club_delete, read_db, write_db, bind, ret, club_cascade, drop_left.
  simpl. repeat split; try apply filter_keeps_others.
  apply Forall_forall. intros c H. apply filter_In in H. destruct H as [_ H].
  apply negb_true_iff, N.eqb_neq in H. exact H.
Qed.

(* ================================================================== *)
(** * Leaving a club *)

(** C5.  When the logged-in user's client has no membership row for the club,
    [remove_from_joined] raises nothing: it answers with the redirect to the
    profile page and the message 'You are not a member of this club.', and the
    world it returns is the one it was given. *)
Theorem leave_when_not_member
    (request : HttpRequest) (club : uuid) (u : user_id) (client : Client) (w : World) :
  req_user request = Some u ->
  filter (fun c => N.eqb (client_user c) u) (clients (db w)) = [client] ->
  pair_count ClubClient club (client_id client) (db w) = 0%nat ->
  remove_from_joined request club w
  = (Ok (redirect "profile", [error "You are not a member of this club."]), w).
Proof.
  intros Hu Hc Hn.
  unfold pair_count in Hn. apply length_zero_iff_nil in Hn. simpl in Hn.
  unfold remove_from_joined, login_required. rewrite Hu.
  unfold Client_objects_get, through_objects_get, try_except, read_db, bind, get_one,
    raise, ret.
  simpl. rewrite Hc. simpl. rewrite Hn. reflexivity.
Qed.

Lemma leave_when_not_member_witness :
  remove_from_joined (post_join id_of_club1) 1%N (world_of db1 50)
  = (Ok (redirect "profile", [error "You are not a member of this club."]),
     world_of db1 50).
Proof.
  apply (leave_when_not_member (post_join id_of_club1) 1%N 7%N client1 (world_of db1 50));
    reflexivity.
Defined.

(* ================================================================== *)
(** * Joining a club *)

Lemma club_in_filter (club : Club) (l : uuid) (cs : list Club) :
  In club cs ->
  club_in club (filter (fun c => N.eqb (club_id c) l) cs) = N.eqb l (club_id club).
Proof.
  intros Hin. unfold club_in.
  destruct (N.eqb l (club_id club)) eqn:E.
  - apply N.eqb_eq in E. apply existsb_exists. exists club. split.
    + apply filter_In. split; [exact Hin | now apply N.eqb_eq].
    + apply N.eqb_refl.
  - apply not_true_is_false. intros H. apply existsb_exists in H.
    destruct H as (c & Hc & Hid). apply filter_In in Hc. destruct Hc as [_ Hl].
    apply N.eqb_eq in Hl, Hid. apply N.eqb_neq in E. congruence.
Qed.

(** [club in client.clubs.all()] tells whether a membership row exists. *)
Lemma club_in_joined (club : Club) (client : Client) (cs : list Club) (rows : list Link) :
  In club cs ->
  club_in club
    (flat_map
       (fun row =>
          if N.eqb (link_right row) (client_id client)
          then filter (fun c => N.eqb (club_id c) (link_left row)) cs
          else [])
       rows)
  = existsb (same_pair (club_id club) (client_id client)) rows.
Proof.
  intros Hin. induction rows as [|row rows IH]; [reflexivity|].
  simpl. unfold club_in in *. rewrite existsb_app, IH. f_equal.
  unfold same_pair.
  destruct (N.eqb (link_right row) (client_id client)); simpl.
  - rewrite andb_true_r. now apply club_in_filter.
  - now rewrite andb_false_r.
Qed.

Lemma filter_singleton_In {A} (f : A -> bool) (x : A) (l : list A) :
  filter f l = [x] -> In x l /\ f x = true.
Proof.
  intros H. apply filter_In. rewrite H. now left.
Qed.

Lemma no_pair_count (t : through) (l r : uuid) (d : DB) :
  existsb (same_pair l r) (table t d) = false -> pair_count t l r d = 0%nat.
Proof.
  unfold pair_count. induction (table t d) as [|row rows IH]; [reflexivity|].
  simpl. intros H. apply orb_false_elim in H. destruct H as [H1 H2].
  rewrite H1. auto.
Qed.

Lemma some_pair_count (t : through) (l r : uuid) (d : DB) :
  existsb (same_pair l r) (table t d) = true -> (1 <= pair_count t l r d)%nat.
Proof.
  unfold pair_count. induction (table t d) as [|row rows IH]; [discriminate|].
  simpl. destruct (same_pair l r row); simpl; intros H; [lia | auto].
Qed.

(** Writing back a row read from a table with distinct keys changes nothing. *)
Lemma replace_client_same (self : Client) (rows : list Client) :
  NoDup (map client_id rows) -> In self rows ->
  map (replace_client self) rows = rows.
Proof.
  induction rows as [|r rows IH]; [reflexivity|].
  simpl. intros Hnd Hin. inversion Hnd as [|? ? Hni Hnd']; subst.
  unfold replace_client at 1.
  destruct (N.eqb (client_id r) (client_id self)) eqn:E.
  - apply N.eqb_eq in E. destruct Hin as [-> | Hin].
    + f_equal. clear IH.
      assert (H : forall l, ~ In (client_id self) (map client_id l) ->
                            map (replace_client self) l = l).
      { induction l as [|x l IHl]; [reflexivity|]. simpl. intros Hn.
        unfold replace_client at 1.
        destruct (N.eqb (client_id x) (client_id self)) eqn:Ex.
        - apply N.eqb_eq in Ex. exfalso. apply Hn. now left.
        - f_equal. apply IHl. intros Hc. apply Hn. now right. }
      now apply H.
    + exfalso. apply Hni. rewrite E. now apply in_map.
  - destruct Hin as [-> | Hin].
    + now rewrite N.eqb_refl in E.
    + f_equal. now apply IH.
Qed.

Lemma later_than_now_db (dt : option datetime) (w : World) :
  db (snd (later_than_now dt w)) = db w.
Proof.
  unfold later_than_now, get_datetime, bind, raise, ret. destruct dt; reflexivity.
Qed.

Lemma check_created_db (dt : option datetime) (w : World) :
  db (snd (check_created dt w)) = db w.
Proof.
  unfold check_created, later_than_now, get_datetime, called, bind, raise, ret; simpl.
  destruct dt as [t|]; simpl; [destruct (Z.ltb _ t)|]; reflexivity.
Qed.

Lemma check_modified_db (dt : option datetime) (w : World) :
  db (snd (check_modified dt w)) = db w.
Proof.
  unfold check_modified, later_than_now, get_datetime, called, bind, raise, ret; simpl.
  destruct dt as [t|]; simpl; [destruct (Z.ltb _ t)|]; reflexivity.
Qed.

(** Saving a client as it was read leaves the store as it is, whether the
    validators of [save] accept its timestamps or raise. *)
Lemma Client_save_unchanged (self : Client) (w : World) :
  NoDup (map client_id (clients (db w))) ->
  filter (fun c => N.eqb (client_user c) (client_user self)) (clients (db w)) = [self] ->
  db (snd (Client_save self false w)) = db w.
Proof.
  intros Hnd Hf.
  destruct (filter_singleton_In _ _ _ Hf) as [Hin _].
  unfold Client_save, create_save, Client_validators, for_each, bind; simpl.
  pose proof (check_created_db (client_created self) w) as Hc.
  destruct (check_created (client_created self) w) as [[[]|e] w1]; simpl in *; [|exact Hc].
  pose proof (check_modified_db (client_modified self) w1) as Hm.
  destruct (check_modified (client_modified self) w1) as [[[]|e] w2]; simpl in *;
    [|congruence].
  assert (Hd : db w2 = db w) by congruence.
  unfold Model_save, read_db, write_db, bind, raise, ret; simpl. rewrite Hd.
  assert (Hex : existsb (fun r => N.eqb (client_id r) (client_id self)) (clients (db w)) = true).
  { apply existsb_exists. exists self. split; [exact Hin | apply N.eqb_refl]. }
  rewrite Hex. simpl.
  assert (Hno : existsb (fun r => negb (N.eqb (client_id r) (client_id self))
                                  && N.eqb (client_user r) (client_user self))
                        (clients (db w)) = false).
  { apply not_true_is_false. intros H. apply existsb_exists in H.
    destruct H as (r & Hr & Hb). apply andb_prop in Hb. destruct Hb as [Hb1 Hb2].
    assert (Hrf : In r [self]) by (rewrite <- Hf; apply filter_In; auto).
    destruct Hrf as [<- | []]. now rewrite N.eqb_refl in Hb1. }
  rewrite Hno. simpl. rewrite replace_client_same; auto.
  unfold set_clients. destruct (db w); reflexivity.
Qed.

Section Membership.

Variable to_python : text -> option uuid.

(** C6.  Whenever the [id] parameter cannot be parsed, and whenever it parses
    to an identifier no club has, [join] takes the same way out: it raises
    nothing, answers with the redirect to the club list, and returns the world
    it was given. *)
Theorem join_malformed_like_missing
    (request : HttpRequest) (id_ : text) (u : user_id) (client : Client) (w : World) :
  req_user request = Some u ->
  filter (fun c => N.eqb (client_user c) u) (clients (db w)) = [client] ->
  req_GET_id request = Some id_ ->
  (to_python id_ = None \/
   exists x, to_python id_ = Some x /\
             filter (fun c => N.eqb (club_id c) x) (clubs (db w)) = []) ->
  join to_python request w = (Ok (redirect "clubs"), w).
Proof.
  intros Hu Hc Hid Hbad.
  unfold join, login_required. rewrite Hu.
  unfold Client_objects_get, read_db, bind, get_one, ret. simpl. rewrite Hc, Hid.
  destruct id_ as [|ch id_]; [reflexivity|].
  unfold lookup_club, Club_objects_get, try_except, read_db, bind, get_one, raise, ret.
  destruct Hbad as [Hn | (x & Hs & Hnone)].
  - rewrite Hn. reflexivity.
  - rewrite Hs. simpl. rewrite Hnone. reflexivity.
Qed.

Lemma join_when_member
    (request : HttpRequest) (id_ : text) (u : user_id) (client : Client) (club : Club)
    (w : World) :
  req_user request = Some u ->
  filter (fun c => N.eqb (client_user c) u) (clients (db w)) = [client] ->
  req_GET_id request = Some id_ ->
  id_ <> [] ->
  to_python id_ = Some (club_id club) ->
  filter (fun c => N.eqb (club_id c) (club_id club)) (clubs (db w)) = [club] ->
  existsb (same_pair (club_id club) (client_id client)) (club_client (db w)) = true ->
  join to_python request w = (Ok (redirect "profile"), w).
Proof.
  intros Hu Hc Hid Hne Hp Hclub Hmem.
  unfold join, login_required. rewrite Hu.
  unfold Client_objects_get, read_db, bind, get_one, ret. simpl. rewrite Hc, Hid.
  destruct id_ as [|ch id_]; [congruence|].
  unfold lookup_club, Club_objects_get, try_except, read_db, bind, get_one, raise, ret.
  rewrite Hp. simpl. rewrite Hclub.
  unfold Client_clubs_all, read_db, bind, ret. simpl.
  rewrite club_in_joined by (apply (filter_singleton_In _ _ _ Hclub)).
  rewrite Hmem. reflexivity.
Qed.

Lemma join_post_when_not_member
    (request : HttpRequest) (id_ : text) (u : user_id) (client : Client) (club : Club)
    (w : World) :
  req_user request = Some u ->
  req_method request = "POST"%string ->
  filter (fun c => N.eqb (client_user c) u) (clients (db w)) = [client] ->
  NoDup (map client_id (clients (db w))) ->
  req_GET_id request = Some id_ ->
  id_ <> [] ->
  to_python id_ = Some (club_id club) ->
  filter (fun c => N.eqb (club_id c) (club_id club)) (clubs (db w)) = [club] ->
  existsb (same_pair (club_id club) (client_id client)) (club_client (db w)) = false ->
  exists i c,
    db (snd (join to_python request w))
    = set_table ClubClient
        (club_client (db w) ++ [mkLink i c None (club_id club) (client_id client)]) (db w).
Proof.
  intros Hu Hpost Hc Hnd Hid Hne Hp Hclub Hmem.
  exists (uuids w (drawn w)), (Some (clock w (tick w))).
  unfold join, login_required. rewrite Hu.
  unfold Client_objects_get, read_db, bind, get_one, ret. simpl. rewrite Hc, Hid.
  destruct id_ as [|ch id_]; [congruence|].
  unfold lookup_club, Club_objects_get, try_except, read_db, bind, get_one, raise, ret.
  rewrite Hp. simpl. rewrite Hclub.
  unfold Client_clubs_all, read_db, bind, ret. simpl.
  rewrite club_in_joined by (apply (filter_singleton_In _ _ _ Hclub)).
  rewrite Hmem, Hpost. simpl.
  unfold related_add, through_exists, through_init, through_insert, default_now,
    get_datetime, uuid4, read_db, write_db, bind, raise, ret. simpl.
  rewrite Hmem. simpl.
  match goal with
  | |- db (snd (match Client_save client false ?w1 with _ => _ end)) = _ =>
      pose proof (Client_save_unchanged client w1) as Hs;
      destruct (Client_save client false w1) as [[[]|e] w2]
  end; simpl in *; apply Hs; auto.
  all: assert (Hcu : client_user client = u)
         by (apply N.eqb_eq; apply (filter_singleton_In _ _ _ Hc));
       rewrite Hcu; exact Hc.
Qed.

(** C4.  A POST to [join] for a club the client is about to join, or has
    joined once already, followed by a second POST: the second call raises
    nothing, answers with the redirect to the profile page through the
    already-member branch, returns the world it was given (no new row), and
    the pair has exactly one membership row. *)
Theorem join_twice_one_row
    (request : HttpRequest) (id_ : text) (u : user_id) (client : Client) (club : Club)
    (w : World) :
  req_user request = Some u ->
  req_method request = "POST"%string ->
  filter (fun c => N.eqb (client_user c) u) (clients (db w)) = [client] ->
  NoDup (map client_id (clients (db w))) ->
  req_GET_id request = Some id_ ->
  id_ <> [] ->
  to_python id_ = Some (club_id club) ->
  filter (fun c => N.eqb (club_id c) (club_id club)) (clubs (db w)) = [club] ->
  (pair_count ClubClient (club_id club) (client_id client) (db w) <= 1)%nat ->
  let w1 := snd (join to_python request w) in
  join to_python request w1 = (Ok (redirect "profile"), w1) /\
  pair_count ClubClient (club_id club) (client_id client) (db w1) = 1%nat.
Proof.
  intros Hu Hpost Hc Hnd Hid Hne Hp Hclub Hcount w1.
  destruct (existsb (same_pair (club_id club) (client_id client)) (club_client (db w)))
    eqn:Hmem.
  - assert (Hj : join to_python request w = (Ok (redirect "profile"), w))
      by (eapply join_when_member; eauto).
    subst w1. rewrite Hj. simpl. split; [exact Hj|].
    pose proof (some_pair_count ClubClient _ _ (db w) Hmem). lia.
  - destruct (join_post_when_not_member request id_ u client club w) as (i & c & Hdb); auto.
    fold w1 in Hdb.
    assert (Hmem1 : existsb (same_pair (club_id club) (client_id client))
                            (club_client (db w1)) = true).
    { rewrite Hdb. simpl. rewrite existsb_app. simpl.
      rewrite same_pair_refl. simpl. apply orb_true_r. }
    split.
    + eapply join_when_member; eauto; rewrite Hdb; simpl; auto.
    + unfold pair_count. rewrite Hdb. simpl. rewrite filter_app, length_app. simpl.
      rewrite same_pair_refl. simpl.
      pose proof (no_pair_count ClubClient _ _ (db w) Hmem) as H0.
      unfold pair_count in H0. simpl in H0. rewrite H0. reflexivity.
Qed.

End Membership.

Lemma join_malformed_like_missing_witness :
  join hex32 (post_join id_malformed) (world_of db1 50)
  = (Ok (redirect "clubs"), world_of db1 50)
  /\ join hex32 (post_join id_unknown) (world_of db1 50)
     = (Ok (redirect "clubs"), world_of db1 50).
Proof.
  split.
  - apply (join_malformed_like_missing hex32 (post_join id_malformed) id_malformed
             7%N client1 (world_of db1 50)); try reflexivity.
    left. reflexivity.
  - apply (join_malformed_like_missing hex32 (post_join id_unknown) id_unknown
             7%N client1 (world_of db1 50)); try reflexivity.
    right. exists 255%N. split; reflexivity.
Defined.

Lemma join_twice_one_row_witness :
  let w1 := snd (join hex32 (post_join id_of_club1) (world_of db1 50)) in
  join hex32 (post_join id_of_club1) w1 = (Ok (redirect "profile"), w1) /\
  pair_count ClubClient 1%N 2%N (db w1) = 1%nat.
Proof.
  apply (join_twice_one_row hex32 (post_join id_of_club1) id_of_club1 7%N client1 club1
           (world_of db1 50)); try reflexivity.
  - simpl. constructor; [intros [] | constructor].
  - discriminate.
  - unfold pair_count. simpl. lia.
Defined.

Section Profile.

Variable to_python : text -> option uuid.

Lemma profile_when_member
    (request : HttpRequest) (value_ : text) (u : user_id) (client : Client) (club : Club)
    (w : World) :
  req_user request = Some u ->
  req_method request = "POST"%string ->
  filter (fun c => N.eqb (client_user c) u) (clients (db w)) = [client] ->
  req_POST_club request = Some value_ ->
  value_ <> [] ->
  to_python value_ = Some (club_id club) ->
  filter (fun c => N.eqb (club_id c) (club_id club)) (clubs (db w)) = [club] ->
  existsb (same_pair (club_id club) (client_id client)) (club_client (db w)) = true ->
  exists client_clubs,
    profile to_python request w
    = (Ok (render_profile "You already joined this club!" client_clubs), w).
Proof.
  intros Hu Hpost Hc Hv Hne Hp Hclub Hmem.
  unfold profile, login_required. rewrite Hu.
  unfold Client_objects_get, read_db, bind, get_one, ret. simpl. rewrite Hc, Hpost. simpl.
  unfold Join_clean. rewrite Hv.
  destruct value_ as [|ch value_]; [congruence|].
  unfold Club_objects_get, try_except, through_exists, Client_clubs_all, read_db, bind,
    get_one, raise, ret.
  rewrite Hp. simpl. rewrite Hclub, Hmem. simpl. eexists. reflexivity.
Qed.

Lemma profile_post_when_not_member
    (request : HttpRequest) (value_ : text) (u : user_id) (client : Client) (club : Club)
    (w : World) :
  req_user request = Some u ->
  req_method request = "POST"%string ->
  filter (fun c => N.eqb (client_user c) u) (clients (db w)) = [client] ->
  req_POST_club request = Some value_ ->
  value_ <> [] ->
  to_python value_ = Some (club_id club) ->
  filter (fun c => N.eqb (club_id c) (club_id club)) (clubs (db w)) = [club] ->
  existsb (same_pair (club_id club) (client_id client)) (club_client (db w)) = false ->
  exists i c,
    db (snd (profile to_python request w))
    = set_table ClubClient
        (club_client (db w) ++ [mkLink i c None (club_id club) (client_id client)]) (db w).
Proof.
  intros Hu Hpost Hc Hv Hne Hp Hclub Hmem.
  exists (uuids w (drawn w)), (Some (clock w (tick w))).
  unfold profile, login_required. rewrite Hu.
  unfold Client_objects_get, read_db, bind, get_one, ret. simpl. rewrite Hc, Hpost. simpl.
  unfold Join_clean. rewrite Hv.
  destruct value_ as [|ch value_]; [congruence|].
  unfold Club_objects_get, try_except, through_exists, through_objects_create,
    through_init, through_insert, default_now, get_datetime, uuid4, Client_clubs_all,
    read_db, write_db, bind, get_one, raise, ret.
  rewrite Hp. simpl. rewrite Hclub, Hmem. reflexivity.
Qed.

(** X25.  The same through the form of the profile page: the second submission of a
    club answers 'You already joined this club!', returns the world it was
    given, and the pair has one membership row. *)
Lemma profile_twice_one_row
    (request : HttpRequest) (value_ : text) (u : user_id) (client : Client) (club : Club)
    (w : World) :
  req_user request = Some u ->
  req_method request = "POST"%string ->
  filter (fun c => N.eqb (client_user c) u) (clients (db w)) = [client] ->
  req_POST_club request = Some value_ ->
  value_ <> [] ->
  to_python value_ = Some (club_id club) ->
  filter (fun c => N.eqb (club_id c) (club_id club)) (clubs (db w)) = [club] ->
  (pair_count ClubClient (club_id club) (client_id client) (db w) <= 1)%nat ->
  let w1 := snd (profile to_python request w) in
  (exists client_clubs,
     profile to_python request w1
     = (Ok (render_profile "You already joined this club!" client_clubs), w1)) /\
  pair_count ClubClient (club_id club) (client_id client) (db w1) = 1%nat.
Proof.
  intros Hu Hpost Hc Hv Hne Hp Hclub Hcount w1.
  destruct (existsb (same_pair (club_id club) (client_id client)) (club_client (db w)))
    eqn:Hmem.
  - destruct (profile_when_member request value_ u client club w) as (cs & Hrun); auto.
    subst w1. rewrite Hrun. simpl. split; [eauto|].
    pose proof (some_pair_count ClubClient _ _ (db w) Hmem). lia.
  - destruct (profile_post_when_not_member request value_ u client club w)
      as (i & c & Hdb); auto.
    fold w1 in Hdb.
    assert (Hmem1 : existsb (same_pair (club_id club) (client_id client))
                            (club_client (db w1)) = true).
    { rewrite Hdb. simpl. rewrite existsb_app. simpl.
      rewrite same_pair_refl. simpl. apply orb_true_r. }
    split.
    + eapply profile_when_member; eauto; rewrite Hdb; simpl; auto.
    + unfold pair_count. rewrite Hdb. simpl. rewrite filter_app, length_app. simpl.
      rewrite same_pair_refl. simpl.
      pose proof (no_pair_count ClubClient _ _ (db w) Hmem) as H0.
      unfold pair_count in H0. simpl in H0. rewrite H0. reflexivity.
Qed.

End Profile.

(* ================================================================== *)
(** * Writing clubs and clients *)

(** C2 (counterexample).  The claim: every create and save path runs the
    validator of each guarded field.  [Club.objects.create] with the phone
    number ['ABC'], which [phone_number_validator] rejects, calls no validator
    and stores the club. *)
Lemma Club_create_stores_rejected_phone :
  let w := world_of empty_db 50 in
  let kwargs := mkClubKwargs (Some (lit "ABC")) (Some (lit "ABC")) None None in
  let club := mkClub 100%N (Some 50) (Some 51) (lit "ABC") (lit "ABC") in
  fst (phone_number_validator (lit "ABC") w)
  = Raise (ValidationError msg_phone (Some ("phone_number"%string, VStr (lit "ABC")))) /\
  fst (Club_objects_create kwargs w) = Ok club /\
  clubs (db (snd (Club_objects_create kwargs w))) = [club] /\
  validated (snd (Club_objects_create kwargs w)) = [].
Proof.
  repeat split; reflexivity.
Qed.

Lemma check_created_run (dt : option datetime) (w : World) :
  check_created dt w
  = (timestamp_outcome "created" dt (clock w (tick w)), after_call v_check_created dt w).
Proof.
  unfold check_created, later_than_now, get_datetime, called, bind, raise, ret,
    timestamp_outcome, after_call; simpl.
  destruct dt as [t|]; simpl; [destruct (Z.ltb _ t)|]; reflexivity.
Qed.

Lemma check_modified_run (dt : option datetime) (w : World) :
  check_modified dt w
  = (timestamp_outcome "modified" dt (clock w (tick w)), after_call v_check_modified dt w).
Proof.
  unfold check_modified, later_than_now, get_datetime, called, bind, raise, ret,
    timestamp_outcome, after_call; simpl.
  destruct dt as [t|]; simpl; [destruct (Z.ltb _ t)|]; reflexivity.
Qed.

Ltac split_timestamp dt :=
  unfold timestamp_outcome;
  destruct dt as [?t|] eqn:?; simpl;
  [match goal with
   | |- context [Z.ltb ?a ?b] => destruct (Z.ltb_spec a b); simpl
   end|].

Ltac split_exists :=
  repeat match goal with
         | |- context [existsb ?f ?l] => destruct (existsb f l) eqn:?; simpl
         end.

Ltac step_validators :=
  repeat first
    [ rewrite check_created_run; unfold timestamp_outcome, after_call; simpl
    | rewrite check_modified_run; unfold timestamp_outcome, after_call; simpl
    | match goal with
      | |- context [Z.ltb ?a ?b] => destruct (Z.ltb_spec a b); simpl
      end ].

Ltac run_create :=
  unfold Client_objects_create, Manager_create, QuerySet_create, Client_init,
    Client_save, create_save, Client_validators, for_each, check_and_validate,
    kwargs_lookup, kwarg_or_default, default_now, get_datetime, uuid4, bind, ret;
  simpl.

Ltac run_save :=
  unfold Model_save, read_db, write_db, bind, raise, ret; simpl.

Lemma In_replace_client (self : Client) (rows : list Client) :
  existsb (fun r => N.eqb (client_id r) (client_id self)) rows = true ->
  In self (map (replace_client self) rows).
Proof.
  intros H. apply existsb_exists in H. destruct H as (r & Hr & Hid).
  apply in_map_iff. exists r. split; [|exact Hr].
  unfold replace_client. now rewrite Hid.
Qed.

(** [Client.save]: when it returns, the row is stored and both timestamps
    were passed to their validators and found not later than the clock; when
    it raises, nothing was written. *)
Lemma Client_save_validates (self : Client) (force_insert : bool) (w : World) :
  match Client_save self force_insert w with
  | (Ok _, w') =>
      In self (clients (db w')) /\
      accepted_during (client_created self) w w' /\
      accepted_during (client_modified self) w w' /\
      validated_during v_check_created (client_created self) w w' /\
      validated_during v_check_modified (client_modified self) w w'
  | (Raise _, w') => db w' = db w
  end.
Proof.
  unfold Client_save, create_save, Client_validators, for_each, bind, ret; simpl.
  rewrite check_created_run. split_timestamp (client_created self); auto.
  rewrite check_modified_run. split_timestamp (client_modified self); auto.
  run_save. destruct force_insert; simpl; split_exists; auto.
  all: unfold accepted_during, validated_during; simpl.
  all: split; [first [apply in_or_app; right; now left | now apply In_replace_client]|].
  all: repeat split; auto.
  all: try (eexists _, _; split; [reflexivity | split; [ | eassumption ]; lia]).
  all: eexists; split; [rewrite <- app_assoc; reflexivity | simpl; auto].
Qed.

Lemma accepted_during_weaken (dt : option datetime) (w w0 w' : World) :
  clock w0 = clock w -> (tick w <= tick w0)%nat ->
  accepted_during dt w0 w' -> accepted_during dt w w'.
Proof.
  intros Hc Ht (x & k & Hdt & Hk & Hle). exists x, k. rewrite <- Hc.
  repeat split; auto; lia.
Qed.

Lemma validated_during_weaken (v : validator) (dt : option datetime) (w w0 w' : World) :
  (exists pre, validated w0 = validated w ++ pre) ->
  validated_during v dt w0 w' -> validated_during v dt w w'.
Proof.
  intros (pre & Hpre) (calls & Hc & Hin). exists (pre ++ calls). split.
  - rewrite Hc, Hpre. now rewrite app_assoc.
  - apply in_or_app. now right.
Qed.

Local Opaque Client_save.

(** What precedes the [save] inside [Client.objects.create] (the checks of
    [Manager.create] under the custom binding, then the construction of the
    instance) writes nothing: it either raises, or hands an instance to
    [save] in a world with the same store and clock. *)
Lemma before_save (b : objects_binding) (kwargs : ClientKwargs) (w : World) :
  (exists e w0, Client_objects_create b kwargs w = (Raise e, w0) /\ db w0 = db w) \/
  (exists obj w0,
     Client_objects_create b kwargs w
     = (let (r, w') := Client_save obj true w0 in
        match r with Ok _ => (Ok obj, w') | Raise e => (Raise e, w') end) /\
     db w0 = db w /\ clock w0 = clock w /\ (tick w <= tick w0)%nat /\
     exists pre, validated w0 = validated w ++ pre).
Proof.
  destruct b, kwargs as [u [[c|]|] [[m|]|]];
    unfold Client_objects_create, Manager_create, QuerySet_create, Client_init,
      Client_validators, for_each, check_and_validate, kwargs_lookup,
      kwarg_or_default, default_now, get_datetime, uuid4, bind, ret;
    cbn -[Client_save check_created check_modified]; step_validators.
  all: try (left; eexists _, _; split; [reflexivity | reflexivity]).
  all: right; eexists _, _; split; [reflexivity|]; simpl.
  all: repeat split; auto; try lia.
  all: try (exists []; now rewrite app_nil_r).
  all: try (eexists; rewrite <- ?app_assoc; reflexivity).
Qed.

Local Transparent Client_save.

(** C2 (as amended).  The guarded fields whose validators run on create and
    on save are the two timestamps of Client.  Whichever manager serves
    [Client.objects.create], and for [Client.save] with or without
    [force_insert]: when the call returns, the stored row's [created] and
    [modified] were each passed to their validator during the call and are not
    later than a clock reading taken during the call; when the call raises,
    the store is as it was. *)
Theorem Client_writes_are_validated
    (b : objects_binding) (kwargs : ClientKwargs) (self : Client) (force_insert : bool)
    (w : World) :
  match Client_objects_create b kwargs w with
  | (Ok obj, w') =>
      In obj (clients (db w')) /\
      accepted_during (client_created obj) w w' /\
      accepted_during (client_modified obj) w w' /\
      validated_during v_check_created (client_created obj) w w' /\
      validated_during v_check_modified (client_modified obj) w w'
  | (Raise _, w') => db w' = db w
  end /\
  match Client_save self force_insert w with
  | (Ok _, w') =>
      In self (clients (db w')) /\
      accepted_during (client_created self) w w' /\
      accepted_during (client_modified self) w w' /\
      validated_during v_check_created (client_created self) w w' /\
      validated_during v_check_modified (client_modified self) w w'
  | (Raise _, w') => db w' = db w
  end.
Proof.
  split; [|apply Client_save_validates].
  destruct (before_save b kwargs w)
    as [(e & w0 & -> & Hdb) | (obj & w0 & -> & Hdb & Hck & Htk & Hpre)]; [exact Hdb|].
  pose proof (Client_save_validates obj true w0) as Hs.
  destruct (Client_save obj true w0) as [[[]|e] w']; simpl.
  - destruct Hs as (Hin & Hc & Hm & Hvc & Hvm).
    repeat split; auto.
    + eapply accepted_during_weaken; eauto.
    + eapply accepted_during_weaken; eauto.
    + eapply validated_during_weaken; eauto.
    + eapply validated_during_weaken; eauto.
  - congruence.
Qed.

(* ================================================================== *)
(** * Timestamps of a new client *)


(** With a clock that is set back between the construction of the instance
    and its [save], the validator called on the default rejects it. *)
Lemma Client_create_default_rejected_when_clock_set_back :
  fst (Client_objects_create stock_manager (mkClientKwargs 9%N None None)
         (set_back_world db1))
  = Raise (ValidationError msg_future (Some ("created"%string, VDate (Some 100)))).
Proof. reflexivity. Qed.



Section Defaults.

Variables (b : objects_binding) (u : user_id) (m : option (option datetime)).
Variables (t : datetime) (w : World).

(** the clock never goes backwards *)
Hypothesis Hmono : forall i j, (i <= j)%nat -> clock w i <= clock w j.







End Defaults.


(* ================================================================== *)
(** * Permissions *)

(** X1. what [MyPermission] grants.  Without a user nothing is permitted; an
    authenticated user who is not a superuser is permitted exactly GET, HEAD,
    OPTIONS and PATCH; an authenticated superuser is permitted exactly those
    and POST, PUT and DELETE. *)
Theorem has_permission_table (method : string) (su : bool) :
  has_permission method None = false /\
  (has_permission method (Some (mkUser true false)) = true
   <-> In method ["GET"; "HEAD"; "OPTIONS"; "PATCH"]%string) /\
  (has_permission method (Some (mkUser true true)) = true
   <-> In method ["GET"; "HEAD"; "OPTIONS"; "PATCH"; "POST"; "PUT"; "DELETE"]%string) /\
  has_permission method (Some (mkUser false su))
  = (su && method_in method _unsafe_methods).
Proof.
  unfold has_permission, method_in, _safe_methods, _unsafe_methods, user_and; simpl.
  repeat match goal with
         | |- context [String.eqb method ?s] =>
             destruct (String.eqb_spec method s); [subst method|]
         end; simpl; destruct su; simpl;
    repeat split; intros; auto; try discriminate; try congruence; intuition congruence.
Qed.

(* ================================================================== *)
(** * What the membership views do to the store *)

Ltac without_match x :=
  tryif (match x with context [match _ with _ => _ end] => idtac end)
  then fail else idtac.

(** Case analysis on an innermost scrutinee of the goal. *)
Ltac break_match :=
  match goal with
  | |- context [match ?x with _ => _ end] => without_match x; destruct x eqn:?
  end.

Lemma catalog_kept_refl (d : DB) : catalog_kept d d.
Proof. repeat split. Qed.

Lemma membership_step_refl (d : DB) : membership_step d d.
Proof. split; [apply catalog_kept_refl | now left]. Qed.

(** [Client.save] writes to the table of clients only. *)
Lemma Client_save_frame (self : Client) (force_insert : bool) (w : World) :
  catalog_kept (db w) (db (snd (Client_save self force_insert w))) /\
  club_client (db (snd (Client_save self force_insert w))) = club_client (db w).
Proof.
  unfold Client_save, create_save, Client_validators, for_each, bind, ret; simpl.
  rewrite check_created_run. split_timestamp (client_created self);
    try (split; [apply catalog_kept_refl | reflexivity]).
  rewrite check_modified_run. split_timestamp (client_modified self);
    try (split; [apply catalog_kept_refl | reflexivity]).
  run_save. destruct force_insert; simpl; split_exists;
    (split; [unfold catalog_kept; simpl; repeat split | reflexivity]).
Qed.

Local Opaque Client_save.

Ltac step_view :=
  repeat first
    [ match goal with
      | |- context [Client_save ?c ?f ?w] =>
          let H := fresh "Hsave" in
          pose proof (Client_save_frame c f w) as H;
          destruct (Client_save c f w) as [[[]|?] ?]; simpl in H |- *
      end
    | match goal with
      | |- context [club_in ?a ?b] => destruct (club_in a b) eqn:?; simpl in *
      | |- context [existsb ?f ?l] => destruct (existsb f l) eqn:?; simpl in *
      end
    | break_match; simpl in * ].

Lemma join_step (to_python : text -> option uuid) (request : HttpRequest) (w : World) :
  membership_step (db w) (db (snd (join to_python request w))).
Proof.
  unfold join, login_required, Client_objects_get, lookup_club, Club_objects_get,
    Client_clubs_all, related_add, through_exists, through_init, through_insert,
    default_now, get_datetime, uuid4, try_except, read_db, write_db, bind, get_one,
    raise, ret.
  simpl. step_view; try apply membership_step_refl.
  all: destruct Hsave as [Hcat Hcc]; split; try exact Hcat.
  all: rewrite Hcc; simpl; auto.
  all: right; left; eexists; split; [reflexivity|]; simpl; assumption.
Qed.

Lemma profile_step (to_python : text -> option uuid) (request : HttpRequest) (w : World) :
  membership_step (db w) (db (snd (profile to_python request w))).
Proof.
  unfold profile, login_required, Client_objects_get, Join_clean, Club_objects_get,
    Client_clubs_all, through_exists, through_objects_create, through_init,
    through_insert, default_now, get_datetime, uuid4, try_except, read_db, write_db,
    bind, get_one, raise, ret.
  simpl. step_view; try apply membership_step_refl.
  all: split; [unfold catalog_kept; simpl; repeat split|].
  all: right; left; eexists; split; [reflexivity|]; simpl; assumption.
Qed.

Lemma remove_from_joined_step (request : HttpRequest) (club : uuid) (w : World) :
  membership_step (db w) (db (snd (remove_from_joined request club w))).
Proof.
  unfold remove_from_joined, login_required, Client_objects_get, through_objects_get,
    through_delete, try_except, read_db, write_db, bind, get_one, raise, ret.
  simpl. step_view; try apply membership_step_refl.
  all: split; [unfold catalog_kept; simpl; repeat split|].
  all: right; right; eexists; reflexivity.
Qed.

Local Transparent Client_save.

(** X2. the three membership views write to the clients and to the membership
    rows only: whatever the request, the clubs and the four other association
    tables are afterwards as they were. *)
Theorem membership_views_keep_catalog
    (to_python : text -> option uuid) (request : HttpRequest) (club : uuid) (w : World) :
  catalog_kept (db w) (db (snd (join to_python request w))) /\
  catalog_kept (db w) (db (snd (profile to_python request w))) /\
  catalog_kept (db w) (db (snd (remove_from_joined request club w))).
Proof.
  split; [apply join_step|]. split; [apply profile_step | apply remove_from_joined_step].
Qed.

Lemma not_in_pairs (l r : uuid) (rows : list Link) :
  existsb (same_pair l r) rows = false -> ~ In (l, r) (map pair_of rows).
Proof.
  intros H Hin. apply in_map_iff in Hin. destruct Hin as (row & Hp & Hrow).
  assert (Ht : existsb (same_pair l r) rows = true).
  { apply existsb_exists. exists row. split; [exact Hrow|].
    unfold pair_of in Hp. inversion Hp; subst. unfold same_pair.
    now rewrite !N.eqb_refl. }
  congruence.
Qed.

Lemma NoDup_snoc {A} (x : A) (l : list A) :
  NoDup l -> ~ In x l -> NoDup (l ++ [x]).
Proof.
  induction l as [|y l IH]; simpl; intros Hnd Hx.
  - constructor; [intros [] | constructor].
  - inversion Hnd as [|? ? Hy Hl]; subst. constructor.
    + intros Hin. apply in_app_or in Hin. destruct Hin as [Hin | [-> | []]]; auto.
    + apply IH; auto.
Qed.

Lemma pairs_unique_filter (keep : Link -> bool) (rows : list Link) :
  pairs_unique rows -> pairs_unique (filter keep rows).
Proof.
  unfold pairs_unique.
  induction rows as [|row rows IH]; simpl; intros Hnd; [constructor|].
  inversion Hnd as [|? ? Hrow Hrest]; subst.
  destruct (keep row); simpl; auto. constructor; auto.
  intros Hin. apply Hrow. apply in_map_iff in Hin. destruct Hin as (z & Hz & Hin).
  apply filter_In in Hin. destruct Hin as [Hin _]. rewrite <- Hz. now apply in_map.
Qed.

Lemma membership_step_pairs_unique (d d' : DB) :
  membership_step d d' -> pairs_unique (club_client d) -> pairs_unique (club_client d').
Proof.
  unfold pairs_unique. intros [_ [H | [(row & H & Hnew) | (i & H)]]] Hu; rewrite H.
  - exact Hu.
  - rewrite map_app. simpl. apply NoDup_snoc; [exact Hu|].
    now apply not_in_pairs.
  - now apply pairs_unique_filter.
Qed.

(** X3. although the membership table declares no uniqueness, the views never
    break it: if no (club, client) pair is stored twice before a request to
    [join], [profile] or [remove_from_joined], none is stored twice after it,
    whatever the request. *)
Theorem membership_views_keep_pairs_unique
    (to_python : text -> option uuid) (request : HttpRequest) (club : uuid) (w : World) :
  pairs_unique (club_client (db w)) ->
  pairs_unique (club_client (db (snd (join to_python request w)))) /\
  pairs_unique (club_client (db (snd (profile to_python request w)))) /\
  pairs_unique (club_client (db (snd (remove_from_joined request club w)))).
Proof.
  intros Hu. repeat split;
    eapply membership_step_pairs_unique; eauto using join_step, profile_step,
      remove_from_joined_step.
Qed.

Lemma membership_views_keep_pairs_unique_witness :
  pairs_unique (club_client (db (world_of db_member 50))) /\
  pairs_unique (club_client
    (db (snd (join hex32 (post_join id_of_club1) (world_of db_member 50))))) /\
  pairs_unique (club_client
    (db (snd (profile hex32 (post_join id_of_club1) (world_of db_member 50))))) /\
  pairs_unique (club_client
    (db (snd (remove_from_joined (post_join id_of_club1) 1%N (world_of db_member 50))))).
Proof.
  assert (H : pairs_unique (club_client (db (world_of db_member 50)))).
  { unfold pairs_unique. simpl. constructor; [intros [] | constructor]. }
  split; [exact H|].
  exact (membership_views_keep_pairs_unique hex32 (post_join id_of_club1) 1%N
           (world_of db_member 50) H).
Defined.

(* ================================================================== *)
(** * Requests the views do not guard *)

(** X4. a logged-in user without a client row (an account that was not made
    through registration) cannot use the membership pages: [join], [profile]
    and [remove_from_joined] all raise [Client.DoesNotExist] from the lookup
    that precedes their [try] blocks, and write nothing. *)
Theorem membership_views_need_a_client
    (to_python : text -> option uuid) (request : HttpRequest) (club : uuid)
    (u : user_id) (w : World) :
  req_user request = Some u ->
  filter (fun c => N.eqb (client_user c) u) (clients (db w)) = [] ->
  join to_python request w = (Raise (DoesNotExist MClient), w) /\
  profile to_python request w = (Raise (DoesNotExist MClient), w) /\
  remove_from_joined request club w = (Raise (DoesNotExist MClient), w).
Proof.
  intros Hu Hc.
  unfold join, profile, remove_from_joined, login_required. rewrite Hu.
  unfold Client_objects_get, read_db, bind, get_one, raise. simpl. rewrite Hc.
  repeat split.
Qed.

Lemma membership_views_need_a_client_witness :
  join hex32 (mkRequest (Some 8%N) "POST" (Some id_of_club1) None) (world_of db1 50)
  = (Raise (DoesNotExist MClient), world_of db1 50) /\
  profile hex32 (mkRequest (Some 8%N) "POST" (Some id_of_club1) None) (world_of db1 50)
  = (Raise (DoesNotExist MClient), world_of db1 50) /\
  remove_from_joined (mkRequest (Some 8%N) "POST" (Some id_of_club1) None) 1%N
    (world_of db1 50)
  = (Raise (DoesNotExist MClient), world_of db1 50).
Proof.
  apply (membership_views_need_a_client hex32
           (mkRequest (Some 8%N) "POST" (Some id_of_club1) None) 1%N 8%N (world_of db1 50));
    reflexivity.
Defined.

(** X5. the detail page of a club does not catch a failed lookup.  For a
    logged-in user, an [id] that cannot be parsed and an [id] no club has both
    make [club_view] raise (the exceptions [join] catches), with nothing
    written. *)
Theorem club_view_lookup_is_unguarded
    (to_python : text -> option uuid) (request : HttpRequest) (id_ : text)
    (u : user_id) (w : World) :
  req_user request = Some u ->
  req_GET_id request = Some id_ ->
  id_ <> [] ->
  (to_python id_ = None \/
   exists x, to_python id_ = Some x /\
             filter (fun c => N.eqb (club_id c) x) (clubs (db w)) = []) ->
  exists e,
    club_view to_python request w = (Raise e, w) /\
    is_ValidationError_or_ObjectDoesNotExist e = true.
Proof.
  intros Hu Hid Hne Hbad.
  unfold club_view, create_view, login_required. rewrite Hu, Hid.
  destruct id_ as [|ch id_]; [congruence|].
  unfold Club_objects_get, read_db, bind, get_one, raise, ret.
  destruct Hbad as [Hn | (x & Hs & Hnone)].
  - rewrite Hn. eexists. split; reflexivity.
  - rewrite Hs. simpl. rewrite Hnone. eexists. split; reflexivity.
Qed.

Lemma club_view_lookup_is_unguarded_witness :
  exists e,
    club_view hex32 (get_request (Some 7%N) (Some id_malformed)) (world_of db1 50)
    = (Raise e, world_of db1 50) /\
    is_ValidationError_or_ObjectDoesNotExist e = true.
Proof.
  apply (club_view_lookup_is_unguarded hex32 (get_request (Some 7%N) (Some id_malformed))
           id_malformed 7%N (world_of db1 50)); try reflexivity.
  - discriminate.
  - left. reflexivity.
Defined.

(** X6. the detail page of a club.  For a logged-in user and an [id] that
    denotes a stored club, [club_view] renders ['entities/club.html'] with
    that club under the name ['club'] and writes nothing; the user needs no
    client row. *)
Theorem club_view_shows_the_club
    (to_python : text -> option uuid) (request : HttpRequest) (id_ : text)
    (u : user_id) (club : Club) (w : World) :
  req_user request = Some u ->
  req_GET_id request = Some id_ ->
  id_ <> [] ->
  to_python id_ = Some (club_id club) ->
  filter (fun c => N.eqb (club_id c) (club_id club)) (clubs (db w)) = [club] ->
  club_view to_python request w = (Ok (page "entities/club.html" "club" (Some club)), w).
Proof.
  intros Hu Hid Hne Hp Hclub.
  unfold club_view, create_view, login_required. rewrite Hu, Hid.
  destruct id_ as [|ch id_]; [congruence|].
  unfold Club_objects_get, read_db, bind, get_one, raise, ret.
  rewrite Hp. simpl. rewrite Hclub. reflexivity.
Qed.

Lemma club_view_shows_the_club_witness :
  club_view hex32 (get_request (Some 8%N) (Some id_of_club1)) (world_of db1 50)
  = (Ok (page "entities/club.html" "club" (Some club1)), world_of db1 50).
Proof.
  apply (club_view_shows_the_club hex32 (get_request (Some 8%N) (Some id_of_club1))
           id_of_club1 8%N club1 (world_of db1 50)); try reflexivity.
  discriminate.
Defined.

Section MoreMembership.

Variable to_python : text -> option uuid.

(** X7. a request to [join] that is not a POST asks for confirmation only:
    for a club the client has not joined it renders the join page with that
    club and returns the world it was given. *)
Theorem join_without_post_only_asks
    (request : HttpRequest) (id_ : text) (u : user_id) (client : Client) (club : Club)
    (w : World) :
  req_user request = Some u ->
  String.eqb (req_method request) "POST" = false ->
  filter (fun c => N.eqb (client_user c) u) (clients (db w)) = [client] ->
  req_GET_id request = Some id_ ->
  id_ <> [] ->
  to_python id_ = Some (club_id club) ->
  filter (fun c => N.eqb (club_id c) (club_id club)) (clubs (db w)) = [club] ->
  pair_count ClubClient (club_id club) (client_id client) (db w) = 0%nat ->
  join to_python request w = (Ok (render_join club), w).
Proof.
  intros Hu Hm Hc Hid Hne Hp Hclub Hcount.
  assert (Hmem : existsb (same_pair (club_id club) (client_id client))
                         (club_client (db w)) = false).
  { apply not_true_is_false. intros Ht.
    pose proof (some_pair_count ClubClient _ _ (db w) Ht). lia. }
  unfold join, login_required. rewrite Hu.
  unfold Client_objects_get, read_db, bind, get_one, ret. simpl. rewrite Hc, Hid.
  destruct id_ as [|ch id_]; [congruence|].
  unfold lookup_club, Club_objects_get, try_except, read_db, bind, get_one, raise, ret.
  rewrite Hp. simpl. rewrite Hclub.
  unfold Client_clubs_all, read_db, bind, ret. simpl.
  rewrite club_in_joined by (apply (filter_singleton_In _ _ _ Hclub)).
  rewrite Hmem, Hm. reflexivity.
Qed.

End MoreMembership.

Lemma join_without_post_only_asks_witness :
  join hex32 (get_request (Some 7%N) (Some id_of_club1)) (world_of db1 50)
  = (Ok (render_join club1), world_of db1 50).
Proof.
  apply (join_without_post_only_asks hex32 (get_request (Some 7%N) (Some id_of_club1))
           id_of_club1 7%N client1 club1 (world_of db1 50)); try reflexivity.
  discriminate.
Defined.

(* ================================================================== *)
(** * Leaving, and joining then leaving *)

Lemma no_pair_filter (l r : uuid) (rows : list Link) :
  existsb (same_pair l r) rows = false -> filter (same_pair l r) rows = [].
Proof.
  induction rows as [|row rows IH]; [reflexivity|].
  simpl. intros H. apply orb_false_elim in H. destruct H as [H1 H2].
  rewrite H1. auto.
Qed.

Lemma filter_other_ids (i : uuid) (rows : list Link) :
  Forall (fun r => link_id r <> i) rows ->
  filter (fun r => negb (N.eqb (link_id r) i)) rows = rows.
Proof.
  induction 1 as [|row rows Hrow _ IH]; [reflexivity|].
  simpl. apply N.eqb_neq in Hrow. rewrite Hrow. simpl. now rewrite IH.
Qed.

(** [remove_from_joined] when one row holds the pair *)
Lemma leave_when_member_aux
    (request : HttpRequest) (club : uuid) (u : user_id) (client : Client) (row : Link)
    (w : World) :
  req_user request = Some u ->
  filter (fun c => N.eqb (client_user c) u) (clients (db w)) = [client] ->
  filter (same_pair club (client_id client)) (club_client (db w)) = [row] ->
  fst (remove_from_joined request club w)
  = Ok (redirect "profile", [success "You have successfully left the club."]) /\
  db (snd (remove_from_joined request club w))
  = set_table ClubClient
      (filter (fun r => negb (N.eqb (link_id r) (link_id row))) (club_client (db w)))
      (db w).
Proof.
  intros Hu Hc Hrow.
  unfold remove_from_joined, login_required. rewrite Hu.
  unfold Client_objects_get, through_objects_get, through_delete, try_except, read_db,
    write_db, bind, get_one, raise, ret.
  simpl. rewrite Hc. simpl. rewrite Hrow. simpl. split; reflexivity.
Qed.

(** X8. leaving a club one has joined.  When exactly one membership row holds
    the pair, [remove_from_joined] answers with the redirect to the profile
    page and the message of success, deletes the rows that carry that row's
    identifier and nothing else, and leaves no row for the pair. *)
Theorem leave_when_member
    (request : HttpRequest) (club : uuid) (u : user_id) (client : Client) (row : Link)
    (w : World) :
  req_user request = Some u ->
  filter (fun c => N.eqb (client_user c) u) (clients (db w)) = [client] ->
  filter (same_pair club (client_id client)) (club_client (db w)) = [row] ->
  let w' := snd (remove_from_joined request club w) in
  fst (remove_from_joined request club w)
  = Ok (redirect "profile", [success "You have successfully left the club."]) /\
  db w' = set_table ClubClient
            (filter (fun r => negb (N.eqb (link_id r) (link_id row))) (club_client (db w)))
            (db w) /\
  pair_count ClubClient club (client_id client) (db w') = 0%nat.
Proof.
  intros Hu Hc Hrow w'.
  destruct (leave_when_member_aux request club u client row w Hu Hc Hrow) as [Hr Hd].
  split; [exact Hr|]. split; [exact Hd|].
  subst w'. rewrite Hd. unfold pair_count. simpl.
  apply length_zero_iff_nil.
  destruct (filter (same_pair club (client_id client))
              (filter (fun r => negb (N.eqb (link_id r) (link_id row)))
                 (club_client (db w)))) as [|x xs] eqn:E; [reflexivity|].
  exfalso.
  assert (Hx : In x (x :: xs)) by now left.
  rewrite <- E in Hx. apply filter_In in Hx. destruct Hx as [Hx Hp].
  apply filter_In in Hx. destruct Hx as [Hx Hid].
  assert (Hin : In x [row]) by (rewrite <- Hrow; apply filter_In; auto).
  destruct Hin as [<- | []]. now rewrite N.eqb_refl in Hid.
Qed.

Lemma leave_when_member_witness :
  let w := world_of db_member 50 in
  let w' := snd (remove_from_joined (post_join id_of_club1) 1%N w) in
  fst (remove_from_joined (post_join id_of_club1) 1%N w)
  = Ok (redirect "profile", [success "You have successfully left the club."]) /\
  db w' = set_table ClubClient
            (filter (fun r => negb (N.eqb (link_id r) (link_id member_row)))
               (club_client (db w)))
            (db w) /\
  pair_count ClubClient 1%N (client_id client1) (db w') = 0%nat.
Proof.
  apply (leave_when_member (post_join id_of_club1) 1%N 7%N client1 member_row
           (world_of db_member 50)); reflexivity.
Defined.

(** X9. a membership stored twice cannot be left.  When two or more rows
    hold the pair, the lookup of [remove_from_joined] raises
    [MultipleObjectsReturned]; the catch-all handler turns it into the message
    'An error occurred: ...', and the world is returned as it was, with every
    row still there. *)
Theorem leave_when_stored_twice
    (request : HttpRequest) (club : uuid) (u : user_id) (client : Client) (w : World) :
  req_user request = Some u ->
  filter (fun c => N.eqb (client_user c) u) (clients (db w)) = [client] ->
  (2 <= pair_count ClubClient club (client_id client) (db w))%nat ->
  remove_from_joined request club w
  = (Ok (redirect "profile",
         [error_occurred (MultipleObjectsReturned (MThrough ClubClient))]), w).
Proof.
  intros Hu Hc Hn.
  unfold remove_from_joined, login_required. rewrite Hu.
  unfold Client_objects_get, through_objects_get, try_except, read_db, bind, get_one,
    raise, ret.
  simpl. rewrite Hc. simpl.
  unfold pair_count in Hn. simpl in Hn.
  destruct (filter (same_pair club (client_id client)) (club_client (db w)))
    as [|x [|y rest]]; simpl in Hn; try lia.
  reflexivity.
Qed.

Lemma leave_when_stored_twice_witness :
  remove_from_joined (post_join id_of_club1) 1%N (world_of db_twice 50)
  = (Ok (redirect "profile",
         [error_occurred (MultipleObjectsReturned (MThrough ClubClient))]),
     world_of db_twice 50).
Proof.
  apply (leave_when_stored_twice (post_join id_of_club1) 1%N 7%N client1
           (world_of db_twice 50)); try reflexivity.
Defined.

(** [Client.save] on a row as it was read, with timestamps that are not in
    the future, returns normally. *)
Lemma Client_save_passes (self : Client) (tc tm : datetime) (w : World) :
  client_created self = Some tc ->
  client_modified self = Some tm ->
  tc <= clock w (tick w) ->
  tm <= clock w (S (tick w)) ->
  filter (fun c => N.eqb (client_user c) (client_user self)) (clients (db w)) = [self] ->
  fst (Client_save self false w) = Ok tt.
Proof.
  intros Hc Hm Htc Htm Hf.
  destruct (filter_singleton_In _ _ _ Hf) as [Hin _].
  unfold Client_save, create_save, Client_validators, for_each, bind, ret; simpl.
  rewrite check_created_run, Hc. unfold timestamp_outcome, after_call. simpl.
  destruct (Z.ltb_spec (clock w (tick w)) tc); [lia|]. simpl.
  rewrite check_modified_run, Hm. unfold timestamp_outcome, after_call. simpl.
  destruct (Z.ltb_spec (clock w (S (tick w))) tm); [lia|]. simpl.
  run_save.
  assert (Hex : existsb (fun r => N.eqb (client_id r) (client_id self)) (clients (db w)) = true).
  { apply existsb_exists. exists self. split; [exact Hin | apply N.eqb_refl]. }
  rewrite Hex. simpl.
  assert (Hno : existsb (fun r => negb (N.eqb (client_id r) (client_id self))
                                  && N.eqb (client_user r) (client_user self))
                        (clients (db w)) = false).
  { apply not_true_is_false. intros H1. apply existsb_exists in H1.
    destruct H1 as (r & Hr & Hb). apply andb_prop in Hb. destruct Hb as [Hb1 Hb2].
    assert (Hrf : In r [self]) by (rewrite <- Hf; apply filter_In; auto).
    destruct Hrf as [<- | []]. now rewrite N.eqb_refl in Hb1. }
  rewrite Hno. reflexivity.
Qed.

Section JoinAndLeave.

Variable to_python : text -> option uuid.
Variables (request : HttpRequest) (id_ : text) (u : user_id).
Variables (client : Client) (club : Club) (tc tm : datetime) (w : World).

Hypothesis Huser : req_user request = Some u.
Hypothesis Hpost : req_method request = "POST"%string.
Hypothesis Hclient : filter (fun c => N.eqb (client_user c) u) (clients (db w)) = [client].
Hypothesis Hkeys : NoDup (map client_id (clients (db w))).
Hypothesis Hid : req_GET_id request = Some id_.
Hypothesis Hne : id_ <> [].
Hypothesis Hparse : to_python id_ = Some (club_id club).
Hypothesis Hclub : filter (fun c => N.eqb (club_id c) (club_id club)) (clubs (db w)) = [club].
Hypothesis Hnew : pair_count ClubClient (club_id club) (client_id client) (db w) = 0%nat.
(** the client's own timestamps are not later than the clock when [save]
    reads it *)
Hypothesis Hcreated : client_created client = Some tc.
Hypothesis Hmodified : client_modified client = Some tm.
Hypothesis Htc : tc <= clock w (S (tick w)).
Hypothesis Htm : tm <= clock w (S (S (tick w))).

Lemma client_user_is_u : client_user client = u.
Proof. apply N.eqb_eq. apply (filter_singleton_In _ _ _ Hclient). Qed.

Lemma not_member_yet :
  existsb (same_pair (club_id club) (client_id client)) (club_client (db w)) = false.
Proof.
  apply not_true_is_false. intros Ht.
  pose proof (some_pair_count ClubClient _ _ (db w) Ht). lia.
Qed.

Lemma join_post_run :
  fst (join to_python request w) = Ok (redirect "profile") /\
  db (snd (join to_python request w))
  = set_table ClubClient (club_client (db w) ++ [joined_row club client w]) (db w).
Proof.
  pose proof not_member_yet as Hmem. pose proof client_user_is_u as Hcu.
  unfold join, login_required. rewrite Huser.
  unfold Client_objects_get, read_db, bind, get_one, ret. simpl. rewrite Hclient, Hid.
  destruct id_ as [|ch rest]; [congruence|].
  unfold lookup_club, Club_objects_get, try_except, read_db, bind, get_one, raise, ret.
  rewrite Hparse. simpl. rewrite Hclub.
  unfold Client_clubs_all, read_db, bind, ret. simpl.
  rewrite club_in_joined by (apply (filter_singleton_In _ _ _ Hclub)).
  rewrite Hmem, Hpost. simpl.
  unfold related_add, through_exists, through_init, through_insert, default_now,
    get_datetime, uuid4, read_db, write_db, bind, raise, ret. simpl.
  rewrite Hmem. simpl.
  match goal with
  | |- context [Client_save client false ?w1] =>
      pose proof (Client_save_unchanged client w1) as Hs;
      pose proof (Client_save_passes client tc tm w1 Hcreated Hmodified) as Hp;
      destruct (Client_save client false w1) as [[[]|e] w2]
  end; simpl in *.
  - split; [reflexivity|]. apply Hs; auto. rewrite Hcu. exact Hclient.
  - exfalso. assert (Hok : Raise e = Ok tt); [|discriminate].
    apply Hp; auto. rewrite Hcu. exact Hclient.
Qed.

(** X10. a first POST to [join].  For a client who has not joined the club and
    whose own timestamps are not in the future, the call answers with the
    redirect to the profile page and stores one membership row, with a fresh
    identifier and the current time, and changes nothing else; the pair then
    has exactly one row. *)
Theorem join_post_stores_one_row :
  fst (join to_python request w) = Ok (redirect "profile") /\
  db (snd (join to_python request w))
  = set_table ClubClient
      (club_client (db w)
       ++ [mkLink (uuids w (drawn w)) (Some (clock w (tick w))) None
             (club_id club) (client_id client)])
      (db w) /\
  pair_count ClubClient (club_id club) (client_id client) (db (snd (join to_python request w)))
  = 1%nat.
Proof.
  destruct join_post_run as [Hr Hdb]. unfold joined_row in Hdb.
  split; [exact Hr|]. split; [exact Hdb|].
  rewrite Hdb. unfold pair_count. simpl. rewrite filter_app, length_app. simpl.
  rewrite same_pair_refl. simpl.
  rewrite (no_pair_filter _ _ _ not_member_yet). reflexivity.
Qed.

(** the identifier drawn for the new row is not in use in the table *)
Hypothesis Hfresh :
  Forall (fun r => link_id r <> uuids w (drawn w)) (club_client (db w)).

(** X11. joining and then leaving.  After a first POST to [join],
    [remove_from_joined] for the same club answers with the message of
    success and the store is again what it was before the join. *)
Theorem join_then_leave_restores :
  let w1 := snd (join to_python request w) in
  fst (remove_from_joined request (club_id club) w1)
  = Ok (redirect "profile", [success "You have successfully left the club."]) /\
  db (snd (remove_from_joined request (club_id club) w1)) = db w.
Proof.
  intros w1. destruct join_post_run as [_ Hdb]. fold w1 in Hdb.
  assert (Hc1 : filter (fun c => N.eqb (client_user c) u) (clients (db w1)) = [client])
    by (rewrite Hdb; exact Hclient).
  assert (Hrow : filter (same_pair (club_id club) (client_id client)) (club_client (db w1))
                 = [joined_row club client w]).
  { rewrite Hdb. simpl. rewrite filter_app. simpl.
    rewrite (no_pair_filter _ _ _ not_member_yet).
    unfold joined_row. now rewrite same_pair_refl. }
  destruct (leave_when_member_aux request (club_id club) u client
              (joined_row club client w) w1 Huser Hc1 Hrow) as (Hr & Hd).
  split; [exact Hr|]. rewrite Hd, Hdb. simpl.
  rewrite filter_app. simpl. rewrite N.eqb_refl. simpl.
  rewrite app_nil_r, (filter_other_ids _ _ Hfresh).
  destruct (db w); reflexivity.
Qed.

End JoinAndLeave.

Lemma join_post_stores_one_row_witness :
  let w := world_of db1 50 in
  fst (join hex32 (post_join id_of_club1) w) = Ok (redirect "profile") /\
  db (snd (join hex32 (post_join id_of_club1) w))
  = set_table ClubClient
      (club_client (db w)
       ++ [mkLink (uuids w (drawn w)) (Some (clock w (tick w))) None
             (club_id club1) (client_id client1)])
      (db w) /\
  pair_count ClubClient (club_id club1) (client_id client1)
    (db (snd (join hex32 (post_join id_of_club1) w)))
  = 1%nat.
Proof.
  apply (join_post_stores_one_row hex32 (post_join id_of_club1) id_of_club1 7%N
           client1 club1 20 20 (world_of db1 50)); try reflexivity.
  - simpl. constructor; [intros [] | constructor].
  - discriminate.
  - simpl. lia.
  - simpl. lia.
Defined.

Lemma join_then_leave_restores_witness :
  let w := world_of db1 50 in
  let w1 := snd (join hex32 (post_join id_of_club1) w) in
  fst (remove_from_joined (post_join id_of_club1) (club_id club1) w1)
  = Ok (redirect "profile", [success "You have successfully left the club."]) /\
  db (snd (remove_from_joined (post_join id_of_club1) (club_id club1) w1)) = db w.
Proof.
  apply (join_then_leave_restores hex32 (post_join id_of_club1) id_of_club1 7%N
           client1 club1 20 20 (world_of db1 50)); try reflexivity.
  - simpl. constructor; [intros [] | constructor].
  - discriminate.
  - simpl. lia.
  - simpl. lia.
  - constructor.
Defined.

(* ================================================================== *)
(** * The form of the profile page *)

Section MoreProfile.

Variable to_python : text -> option uuid.

(** X12. a submission of the profile form that names no club, or a club that
    cannot be parsed or does not exist, is answered with the page and the
    error 'Form validation error!'; nothing is written. *)
Theorem profile_rejects_unknown_club
    (request : HttpRequest) (u : user_id) (client : Client) (w : World) :
  req_user request = Some u ->
  req_method request = "POST"%string ->
  filter (fun c => N.eqb (client_user c) u) (clients (db w)) = [client] ->
  (req_POST_club request = None \/
   req_POST_club request = Some [] \/
   exists value_,
     req_POST_club request = Some value_ /\
     (to_python value_ = None \/
      exists x, to_python value_ = Some x /\
                filter (fun c => N.eqb (club_id c) x) (clubs (db w)) = [])) ->
  exists client_clubs,
    profile to_python request w
    = (Ok (render_profile "Form validation error!" client_clubs), w).
Proof.
  intros Hu Hpost Hc Hbad.
  unfold profile, login_required. rewrite Hu.
  unfold Client_objects_get, read_db, bind, get_one, ret. simpl. rewrite Hc, Hpost. simpl.
  unfold Join_clean, Club_objects_get, Client_clubs_all, try_except, read_db, bind,
    get_one, raise, ret.
  destruct Hbad as [Hn | [He | (v & Hv & Hbad)]].
  - rewrite Hn. eexists. reflexivity.
  - rewrite He. eexists. reflexivity.
  - rewrite Hv. destruct v as [|ch v]; [eexists; reflexivity|].
    destruct Hbad as [Hn | (x & Hs & Hnone)].
    + rewrite Hn. eexists. reflexivity.
    + rewrite Hs. simpl. rewrite Hnone. eexists. reflexivity.
Qed.

(** X13. joining through the profile form.  For a club the client has not
    joined, a POST of the form stores one membership row for the pair, with a
    fresh identifier and the current time, reports no error, and the list of
    clubs on the answered page already contains the club. *)
Theorem profile_post_joins
    (request : HttpRequest) (value_ : text) (u : user_id) (client : Client) (club : Club)
    (w : World) :
  req_user request = Some u ->
  req_method request = "POST"%string ->
  filter (fun c => N.eqb (client_user c) u) (clients (db w)) = [client] ->
  req_POST_club request = Some value_ ->
  value_ <> [] ->
  to_python value_ = Some (club_id club) ->
  filter (fun c => N.eqb (club_id c) (club_id club)) (clubs (db w)) = [club] ->
  pair_count ClubClient (club_id club) (client_id client) (db w) = 0%nat ->
  exists client_clubs,
    fst (profile to_python request w) = Ok (render_profile "" client_clubs) /\
    club_in club client_clubs = true /\
    db (snd (profile to_python request w))
    = set_table ClubClient
        (club_client (db w)
         ++ [mkLink (uuids w (drawn w)) (Some (clock w (tick w))) None
               (club_id club) (client_id client)])
        (db w).
Proof.
  intros Hu Hpost Hc Hv Hne Hp Hclub Hcount.
  assert (Hmem : existsb (same_pair (club_id club) (client_id client))
                         (club_client (db w)) = false).
  { apply not_true_is_false. intros Ht.
    pose proof (some_pair_count ClubClient _ _ (db w) Ht). lia. }
  unfold profile, login_required. rewrite Hu.
  unfold Client_objects_get, read_db, bind, get_one, ret. simpl. rewrite Hc, Hpost. simpl.
  unfold Join_clean. rewrite Hv.
  destruct value_ as [|ch value_]; [congruence|].
  unfold Club_objects_get, try_except, through_exists, through_objects_create,
    through_init, through_insert, default_now, get_datetime, uuid4, Client_clubs_all,
    read_db, write_db, bind, get_one, raise, ret.
  rewrite Hp. simpl. rewrite Hclub, Hmem. simpl.
  eexists. split; [reflexivity|]. split; [|reflexivity].
  rewrite club_in_joined by (apply (filter_singleton_In _ _ _ Hclub)).
  rewrite existsb_app. simpl. rewrite same_pair_refl. simpl. apply orb_true_r.
Qed.

(** X14. after a club is deleted, [join] with its identifier takes the
    not-found way out (the redirect to the list of clubs, nothing written),
    and the club is on no client's list of joined clubs. *)
Theorem deleted_club_is_gone
    (request : HttpRequest) (id_ : text) (u : user_id) (client : Client) (self : Club)
    (w : World) :
  req_user request = Some u ->
  filter (fun c => N.eqb (client_user c) u) (clients (db w)) = [client] ->
  req_GET_id request = Some id_ ->
  to_python id_ = Some (club_id self) ->
  let w' := snd (Club_delete self w) in
  join to_python request w' = (Ok (redirect "clubs"), w') /\
  exists joined,
    Client_clubs_all client w' = (Ok joined, w') /\ club_in self joined = false.
Proof.
  intros Hu Hc Hid Hp w'.
  assert (Hclubs : filter (fun c => N.eqb (club_id c) (club_id self)) (clubs (db w')) = []).
  { subst w'. unfold Club_delete, read_db, write_db, bind, ret, club_cascade, drop_left.
    simpl.
    induction (clubs (db w)) as [|c cs IH]; [reflexivity|]. simpl.
    destruct (N.eqb (club_id c) (club_id self)) eqn:E; simpl; [exact IH|].
    rewrite E. exact IH. }
  assert (Hclients : clients (db w') = clients (db w)) by reflexivity.
  clearbody w'. rewrite <- Hclients in Hc.
  split.
  - unfold join, login_required. rewrite Hu.
    unfold Client_objects_get, read_db, bind, get_one, ret. simpl.
    rewrite Hc, Hid.
    destruct id_ as [|ch id_]; [reflexivity|].
    unfold lookup_club, Club_objects_get, try_except, read_db, bind, get_one, raise, ret.
    rewrite Hp. simpl. rewrite Hclubs. reflexivity.
  - unfold Client_clubs_all, read_db, bind, ret. eexists. split; [reflexivity|].
    apply not_true_is_false. intros Hin. unfold club_in in Hin.
    apply existsb_exists in Hin. destruct Hin as (c & Hc' & Hcid).
    apply in_flat_map in Hc'. destruct Hc' as (row & _ & Hc').
    destruct (N.eqb (link_right row) (client_id client)); [|destruct Hc'].
    apply filter_In in Hc'. destruct Hc' as [Hc' _].
    assert (Hf : In c (filter (fun c => N.eqb (club_id c) (club_id self)) (clubs (db w'))))
      by (apply filter_In; auto).
    rewrite Hclubs in Hf. destruct Hf.
Qed.

(** X15. a created club can be looked up.  When the identifier [uuid4] draws
    is in use by no club and [s] denotes it, [Club.objects.create] returns a
    club with the given name and phone number under that identifier, and
    [Club.objects.get(id=s)] then returns that same club. *)
Theorem Club_create_then_get
    (s name_ phone : text) (c m : option (option datetime)) (w : World) :
  to_python s = Some (uuids w (drawn w)) ->
  Forall (fun club => club_id club <> uuids w (drawn w)) (clubs (db w)) ->
  let kwargs := mkClubKwargs (Some name_) (Some phone) c m in
  let w' := snd (Club_objects_create kwargs w) in
  exists obj,
    fst (Club_objects_create kwargs w) = Ok obj /\
    club_id obj = uuids w (drawn w) /\
    club_name obj = name_ /\
    club_phone_number obj = phone /\
    Club_objects_get to_python s w' = (Ok obj, w').
Proof.
  intros Hp Hfresh kwargs w'.
  assert (Hnone : filter (fun club => N.eqb (club_id club) (uuids w (drawn w)))
                         (clubs (db w)) = []).
  { induction Hfresh as [|club cs Hclub _ IH]; [reflexivity|].
    simpl. apply N.eqb_neq in Hclub. now rewrite Hclub. }
  subst kwargs w'.
  unfold Club_objects_get. rewrite Hp.
  unfold Club_objects_create, Club_init, Club_save, kwarg_or_default, default_now,
    get_datetime, uuid4, read_db, write_db, bind, get_one, raise, ret.
  destruct c as [c|], m as [m|]; simpl;
    (eexists; repeat split;
     rewrite filter_app, Hnone; simpl; rewrite N.eqb_refl; reflexivity).
Qed.

End MoreProfile.

Lemma profile_rejects_unknown_club_witness :
  exists client_clubs,
    profile hex32 (post_profile id_unknown) (world_of db1 50)
    = (Ok (render_profile "Form validation error!" client_clubs), world_of db1 50).
Proof.
  apply (profile_rejects_unknown_club hex32 (post_profile id_unknown) 7%N client1
           (world_of db1 50)); try reflexivity.
  right. right. exists id_unknown. split; [reflexivity|].
  right. exists 255%N. split; reflexivity.
Defined.

Lemma profile_post_joins_witness :
  let w := world_of db1 50 in
  exists client_clubs,
    fst (profile hex32 (post_profile id_of_club1) w) = Ok (render_profile "" client_clubs) /\
    club_in club1 client_clubs = true /\
    db (snd (profile hex32 (post_profile id_of_club1) w))
    = set_table ClubClient
        (club_client (db w)
         ++ [mkLink (uuids w (drawn w)) (Some (clock w (tick w))) None
               (club_id club1) (client_id client1)])
        (db w).
Proof.
  apply (profile_post_joins hex32 (post_profile id_of_club1) id_of_club1 7%N client1 club1
           (world_of db1 50)); try reflexivity.
  discriminate.
Defined.

Lemma deleted_club_is_gone_witness :
  let w' := snd (Club_delete club1 (world_of db_member 50)) in
  join hex32 (post_join id_of_club1) w' = (Ok (redirect "clubs"), w') /\
  exists joined,
    Client_clubs_all client1 w' = (Ok joined, w') /\ club_in club1 joined = false.
Proof.
  apply (deleted_club_is_gone hex32 (post_join id_of_club1) id_of_club1 7%N client1 club1
           (world_of db_member 50)); reflexivity.
Defined.

(** 32 hexadecimal digits denoting the identifier 100, the first one the
    sample worlds draw *)
Lemma Club_create_then_get_witness :
  let s := lit "00000000000000000000000000000064" in
  let kwargs := mkClubKwargs (Some (lit "DEF")) (Some phone_ok) None None in
  let w := world_of db1 50 in
  let w' := snd (Club_objects_create kwargs w) in
  exists obj,
    fst (Club_objects_create kwargs w) = Ok obj /\
    club_id obj = uuids w (drawn w) /\
    club_name obj = lit "DEF" /\
    club_phone_number obj = phone_ok /\
    Club_objects_get hex32 s w' = (Ok obj, w').
Proof.
  apply (Club_create_then_get hex32 (lit "00000000000000000000000000000064") (lit "DEF")
           phone_ok None None (world_of db1 50)).
  - reflexivity.
  - repeat constructor. simpl. discriminate.
Defined.

(* ================================================================== *)
(** * More on writing clients *)

Lemma no_user_filter (u : user_id) (rows : list Client) :
  existsb (fun r => N.eqb (client_user r) u) rows = false ->
  filter (fun c => N.eqb (client_user c) u) rows = [].
Proof.
  induction rows as [|row rows IH]; [reflexivity|].
  simpl. intros H. apply orb_false_elim in H. destruct H as [H1 H2].
  rewrite H1. auto.
Qed.

(** [save(force_insert=True)] that returns has appended the row, and no
    client had the user before. *)
Lemma Client_insert_returns (self : Client) (w w' : World) (x : unit) :
  Client_save self true w = (Ok x, w') ->
  clients (db w') = clients (db w) ++ [self] /\
  existsb (fun r => N.eqb (client_user r) (client_user self)) (clients (db w)) = false.
Proof.
  unfold Client_save, create_save, Client_validators, for_each, bind, ret; simpl.
  rewrite check_created_run. unfold timestamp_outcome, after_call.
  destruct (client_created self) as [tc|]; simpl; [|discriminate].
  destruct (Z.ltb _ tc); simpl; [discriminate|].
  rewrite check_modified_run. unfold timestamp_outcome, after_call.
  destruct (client_modified self) as [tm|]; simpl; [|discriminate].
  destruct (Z.ltb _ tm); simpl; [discriminate|].
  run_save.
  destruct (existsb (fun r => N.eqb (client_id r) (client_id self)) (clients (db w)));
    simpl; [discriminate|].
  destruct (existsb (fun r => N.eqb (client_user r) (client_user self)) (clients (db w)));
    simpl; [discriminate|].
  intros H. inversion H; subst. simpl. auto.
Qed.

(** [save(force_insert=True)] for a user who has a client raises and writes
    nothing. *)
Lemma Client_insert_taken (self : Client) (w : World) :
  existsb (fun r => N.eqb (client_user r) (client_user self)) (clients (db w)) = true ->
  (exists e, fst (Client_save self true w) = Raise e) /\
  db (snd (Client_save self true w)) = db w.
Proof.
  intros Ht.
  unfold Client_save, create_save, Client_validators, for_each, bind, ret; simpl.
  rewrite check_created_run. unfold timestamp_outcome, after_call.
  destruct (client_created self) as [tc|]; simpl; [|eauto].
  destruct (Z.ltb _ tc); simpl; [eauto|].
  rewrite check_modified_run. unfold timestamp_outcome, after_call.
  destruct (client_modified self) as [tm|]; simpl; [|eauto].
  destruct (Z.ltb _ tm); simpl; [eauto|].
  run_save. rewrite Ht, orb_true_r. simpl. eauto.
Qed.

Local Opaque Client_save.

(** As [before_save], keeping track of the user of the instance. *)
Lemma before_save_user (b : objects_binding) (kwargs : ClientKwargs) (w : World) :
  (exists e w0, Client_objects_create b kwargs w = (Raise e, w0) /\ db w0 = db w) \/
  (exists obj w0,
     Client_objects_create b kwargs w
     = (let (r, w') := Client_save obj true w0 in
        match r with Ok _ => (Ok obj, w') | Raise e => (Raise e, w') end) /\
     db w0 = db w /\ client_user obj = kw_user kwargs).
Proof.
  destruct b, kwargs as [u [[c|]|] [[m|]|]];
    unfold Client_objects_create, Manager_create, QuerySet_create, Client_init,
      Client_validators, for_each, check_and_validate, kwargs_lookup,
      kwarg_or_default, default_now, get_datetime, uuid4, bind, ret;
    cbn -[Client_save check_created check_modified]; step_validators.
  all: try (left; eexists _, _; split; [reflexivity | reflexivity]).
  all: right; eexists _, _; split; [reflexivity|]; simpl; split; reflexivity.
Qed.

Local Transparent Client_save.

(** X16. a created client can be looked up by its user.  Whenever
    [Client.objects.create] returns a client, under either binding of the
    manager, [Client.objects.get(user=...)] for the user it was created for
    returns that same client. *)
Theorem Client_create_then_get
    (b : objects_binding) (kwargs : ClientKwargs) (obj : Client) (w w' : World) :
  Client_objects_create b kwargs w = (Ok obj, w') ->
  Client_objects_get (kw_user kwargs) w' = (Ok obj, w').
Proof.
  intros Hrun.
  destruct (before_save_user b kwargs w)
    as [(e & w0 & He & _) | (obj0 & w0 & He & Hdb & Huser)]; [congruence|].
  rewrite He in Hrun.
  destruct (Client_save obj0 true w0) as [[x|e] w1] eqn:Hs; [|discriminate].
  inversion Hrun; subst obj0 w1.
  destruct (Client_insert_returns obj w0 w' x Hs) as [Hclients Hfree].
  unfold Client_objects_get, read_db, bind, get_one, ret. simpl.
  rewrite Hclients, filter_app, <- Huser, (no_user_filter _ _ Hfree). simpl.
  now rewrite N.eqb_refl.
Qed.

Lemma Client_create_then_get_witness :
  Client_objects_get 9%N
    (snd (Client_objects_create stock_manager (mkClientKwargs 9%N None None)
            (world_of db1 50)))
  = (Ok (mkClient 100%N (Some 50) (Some 51) 9%N),
     snd (Client_objects_create stock_manager (mkClientKwargs 9%N None None)
            (world_of db1 50))).
Proof.
  apply (Client_create_then_get stock_manager (mkClientKwargs 9%N None None)
           (mkClient 100%N (Some 50) (Some 51) 9%N) (world_of db1 50)).
  reflexivity.
Defined.

(** X17. one client per user.  For a user who already has a client,
    [Client.objects.create] raises and writes nothing, whatever the other
    arguments and under either binding of the manager. *)
Theorem Client_create_for_taken_user_fails
    (b : objects_binding) (kwargs : ClientKwargs) (w : World) :
  existsb (fun r => N.eqb (client_user r) (kw_user kwargs)) (clients (db w)) = true ->
  (exists e, fst (Client_objects_create b kwargs w) = Raise e) /\
  db (snd (Client_objects_create b kwargs w)) = db w.
Proof.
  intros Ht.
  destruct (before_save_user b kwargs w)
    as [(e & w0 & He & Hdb) | (obj0 & w0 & He & Hdb & Huser)]; rewrite He.
  - simpl. eauto.
  - rewrite <- Huser, <- Hdb in Ht.
    destruct (Client_insert_taken obj0 w0 Ht) as [(e & Hr) Hd].
    destruct (Client_save obj0 true w0) as [[x|e'] w1]; simpl in *; [discriminate|].
    split; [eauto | congruence].
Qed.

Lemma Client_create_for_taken_user_fails_witness :
  fst (Client_objects_create stock_manager (mkClientKwargs 7%N None None) (world_of db1 50))
  = Raise (IntegrityError MClient) /\
  (exists e,
     fst (Client_objects_create stock_manager (mkClientKwargs 7%N None None)
            (world_of db1 50)) = Raise e) /\
  db (snd (Client_objects_create stock_manager (mkClientKwargs 7%N None None)
             (world_of db1 50)))
  = db (world_of db1 50).
Proof.
  split; [reflexivity|].
  apply (Client_create_for_taken_user_fails stock_manager (mkClientKwargs 7%N None None)
           (world_of db1 50)).
  reflexivity.
Defined.

(** X18. a timestamp given as [None].  The timestamp columns are nullable, but
    the validators compare the value with the clock: [Client.objects.create]
    with [created=None], under either binding of the manager, and
    [Client.save] on an instance whose [created] is [None], raise [TypeError]
    (not a validation error) and write nothing. *)
Theorem Client_null_created_is_a_type_error
    (b : objects_binding) (u : user_id) (m : option (option datetime))
    (i : uuid) (tm : option datetime) (force_insert : bool) (w : World) :
  fst (Client_objects_create b (mkClientKwargs u (Some None) m) w) = Raise TypeError /\
  db (snd (Client_objects_create b (mkClientKwargs u (Some None) m) w)) = db w /\
  Client_save (mkClient i None tm u) force_insert w
  = (Raise TypeError, after_call v_check_created None w).
Proof.
  split; [|split].
  - destruct b, m as [[x|]|]; run_create; step_validators; reflexivity.
  - destruct b, m as [[x|]|]; run_create; step_validators; reflexivity.
  - reflexivity.
Qed.

(** X19. [save] stops at the first timestamp it rejects.  When [created] is
    later than the clock, [Client.save] raises the validation error for
    [created] after one clock reading and one validator call; [modified] is
    not looked at, even if it is in the future too, and nothing is written. *)
Theorem Client_save_stops_at_created
    (i : uuid) (tc : datetime) (tm : option datetime) (u : user_id)
    (force_insert : bool) (w : World) :
  clock w (tick w) < tc ->
  Client_save (mkClient i (Some tc) tm u) force_insert w
  = (Raise (ValidationError msg_future (Some ("created"%string, VDate (Some tc)))),
     after_call v_check_created (Some tc) w).
Proof.
  intros Hlate.
  unfold Client_save, create_save, Client_validators, for_each, bind, ret.
  cbn -[check_created check_modified Model_save].
  rewrite check_created_run. unfold timestamp_outcome.
  destruct (Z.ltb_spec (clock w (tick w)) tc); [reflexivity | lia].
Qed.

Lemma Client_save_stops_at_created_witness :
  Client_save (mkClient 2%N (Some 3000) (Some 4000) 7%N) false (world_of db1 50)
  = (Raise (ValidationError msg_future (Some ("created"%string, VDate (Some 3000)))),
     after_call v_check_created (Some 3000) (world_of db1 50)).
Proof.
  apply (Client_save_stops_at_created 2%N 3000 (Some 4000) 7%N false (world_of db1 50)).
  simpl. lia.
Defined.

(** X20.  The manager built by [create_manager] checks supplied keys only.
    Whatever list of validators keyed by ['created'] and ['modified'] it was
    built with, [Manager.create] without those two keys among its arguments
    does what the stock [create] does. *)
Theorem Manager_create_without_timestamps
    (validators : validators_t) (u : user_id) (w : World) :
  Manager_create validators (mkClientKwargs u None None) w
  = QuerySet_create (mkClientKwargs u None None) w.
Proof.
  unfold Manager_create, bind.
  assert (H : for_each validators
                (fun vv => check_and_validate (mkClientKwargs u None None) (fst vv) (snd vv)) w
              = (Ok tt, w)).
  { induction validators as [|[f v] vs IH]; [reflexivity|].
    simpl. unfold bind, check_and_validate, kwargs_lookup.
    destruct f; simpl; exact IH. }
  now rewrite H.
Qed.

(* ================================================================== *)
(** * The tests of the validators *)

(** X21. the tests of rejected values test nothing.  For every validator and
    every value the validator accepts, the method that
    [create_validation_test] generates with [valid=False] passes, without
    calling the validator or touching the world, although the test it was
    meant to run ([assertRaises] around the call) fails on that value. *)
Theorem invalid_value_tests_pass_on_accepted_values
    {A : Type} (validator_ : A -> M unit) (value_ : A) (w : World) :
  fst (validator_ value_ w) = Ok tt ->
  create_validation_test validator_ value_ false w = (passed, w) /\
  fst (inner_test validator_ value_ w) = assertion_failed.
Proof.
  intros Hok. split; [reflexivity|].
  unfold inner_test, assertRaises_ValidationError.
  destruct (validator_ value_ w) as [[x|e] w']; simpl in *; [reflexivity | discriminate].
Qed.

Lemma invalid_value_tests_pass_on_accepted_values_witness :
  create_validation_test check_level 30 false (world_of db1 50)
  = (passed, world_of db1 50) /\
  fst (inner_test check_level 30 (world_of db1 50)) = assertion_failed.
Proof.
  apply (invalid_value_tests_pass_on_accepted_values check_level 30 (world_of db1 50)).
  reflexivity.
Defined.

(* ================================================================== *)
(** * More on the association tables *)

(** X22. a table that declares [unique_together] stays free of repeated pairs
    under [objects.create]: if no pair is stored twice before the call, none
    is stored twice after it, whether the call returns or raises. *)
Theorem unique_together_keeps_pairs_unique (t : through) (l r : uuid) (w : World) :
  unique_together t = true ->
  pairs_unique (table t (db w)) ->
  pairs_unique (table t (db (snd (through_objects_create t l r w)))).
Proof.
  intros Hu Hnd.
  unfold through_objects_create, through_init, through_insert, default_now,
    get_datetime, uuid4, read_db, write_db, bind, raise, ret.
  destruct t; try discriminate Hu; simpl in *;
    match goal with
    | |- context [existsb ?f ?rows] => destruct (existsb f rows) eqn:E
    end; simpl; try exact Hnd;
    unfold pairs_unique in *; rewrite map_app; simpl;
    (apply NoDup_snoc; [exact Hnd | now apply not_in_pairs]).
Qed.

(** Without the declaration the same call stores the pair twice. *)
Lemma ClubClient_create_repeats_a_pair :
  pairs_unique (club_client (db (world_of db_member 50))) /\
  ~ pairs_unique
      (club_client
         (db (snd (through_objects_create ClubClient 1%N 2%N (world_of db_member 50))))).
Proof.
  split.
  - unfold pairs_unique. simpl. constructor; [intros [] | constructor].
  - unfold pairs_unique. simpl. intros H. inversion H as [|? ? Hin _]; subst.
    apply Hin. now left.
Qed.

(** The pair (1, 5) is stored and is created again. *)
Lemma unique_together_keeps_pairs_unique_witness :
  let w := world_of db_game 50 in
  existsb (same_pair 1%N 5%N) (table ClubToGame (db w)) = true /\
  pairs_unique (table ClubToGame (db w)) /\
  pairs_unique (table ClubToGame (db (snd (through_objects_create ClubToGame 1%N 5%N w)))).
Proof.
  intros w.
  assert (H : pairs_unique (table ClubToGame (db w))).
  { unfold pairs_unique. simpl. constructor; [intros [] | constructor]. }
  split; [reflexivity|]. split; [exact H|].
  exact (unique_together_keeps_pairs_unique ClubToGame 1%N 5%N w eq_refl H).
Defined.

Lemma unique_together_second_create_fails_witness :
  let w1 := snd (through_objects_create ClubToGame 1%N 5%N (world_of db1 50)) in
  fst (through_objects_create ClubToGame 1%N 5%N w1)
  = Raise (IntegrityError (MThrough ClubToGame)) /\
  db (snd (through_objects_create ClubToGame 1%N 5%N w1)) = db w1.
Proof.
  apply (unique_together_second_create_fails ClubToGame 1%N 5%N (world_of db1 50)).
  - reflexivity.
  - simpl. discriminate.
Defined.

Lemma profile_twice_one_row_witness :
  let w1 := snd (profile hex32 (post_profile id_of_club1) (world_of db1 50)) in
  (exists client_clubs,
     profile hex32 (post_profile id_of_club1) w1
     = (Ok (render_profile "You already joined this club!" client_clubs), w1)) /\
  pair_count ClubClient (club_id club1) (client_id client1) (db w1) = 1%nat.
Proof.
  apply (profile_twice_one_row hex32 (post_profile id_of_club1) id_of_club1 7%N client1
           club1 (world_of db1 50)); try reflexivity.
  - discriminate.
  - unfold pair_count. simpl. lia.
Defined.

(* ================================================================== *)
(** * More on the phone number *)

(** X23.  [phone_number_validator] returns normally exactly on the strings
    that are [+7] followed by ten decimal digits, optionally followed by one
    final line feed; on every other string it raises the validation error
    that carries the string. *)
Theorem phone_number_validator_outcome (s : text) (w : World) :
  (fst (phone_number_validator s w) = Ok tt <->
   (spec_phone_format s = true \/
    exists s0, s = s0 ++ [LF] /\ spec_phone_format s0 = true)) /\
  (fst (phone_number_validator s w) = Ok tt \/
   fst (phone_number_validator s w)
   = Raise (ValidationError msg_phone (Some ("phone_number"%string, VStr s)))).
Proof.
  split; [apply phone_number_validator_accepts|].
  unfold phone_number_validator, bind, called, raise, ret. simpl.
  destruct (search rule s); simpl; auto.
Qed.
